(** * ngpb4py: the Apptainer execution wrapper

    A shallow embedding of [src/ngpb4py/apptainer.py] (class
    [ApptainerExecutor]) and the properties of its argument router, command
    builder and execution coordinator.

    Conventions of the embedding:
    - a Python [dict] is an association list in insertion order; assigning to
      a key that is already present keeps its position and replaces its value;
    - a keyword value is a [Py.value]; [None] is [Py.VNone];
    - a [pathlib.Path] is the string [str(path)]; the operations of pathlib
      and every other service of the host (search path, subprocesses, files,
      the process environment) are fields of a [Host] record;
    - a method that logs, writes files, mutates [self] or raises is a
      computation in the monad [M]: state passing over the executor and the
      trace of its effects, with Python exceptions as the error result. *)

From Stdlib Require Import String Ascii List ZArith Bool Lia DecimalString.
Import ListNotations.
Open Scope string_scope.

(** ** Python primitives *)

Module Py.

(** Values a caller passes as keyword arguments.  [VObj shown] stands for
    any other object (a float, a [Path], ...) whose [str()] is [shown]. *)
Inductive value : Type :=
| VNone
| VBool (b : bool)
| VInt (z : Z)
| VStr (s : string)
| VObj (shown : string).

Definition str_int (z : Z) : string := NilZero.string_of_int (Z.to_int z).

(** What [str(v)] returns, where it returns ([str_answers] below);
    [str(None)] is included for totality. *)
Definition str (v : value) : string :=
  match v with
  | VNone => "None"
  | VBool true => "True"
  | VBool false => "False"
  | VInt z => str_int z
  | VStr s => s
  | VObj shown => shown
  end.

(** Where [str(v)] returns: CPython refuses, with a [ValueError], to convert
    an [int] of more than 4300 decimal digits ([sys.int_max_str_digits]). *)
Definition str_answers (v : value) : bool :=
  match v with
  | VInt z => (Z.abs z <? 10 ^ 4300)%Z
  | _ => true
  end.

Definition is_none (v : value) : bool :=
  match v with VNone => true | _ => false end.

(** [s.startswith(p)] *)
Definition startswith (s p : string) : bool := String.prefix p s.

(** [s.replace(old, new)] for a non-empty [old]: every occurrence of [old],
    scanning from the left without overlap, is replaced.  [skip] counts the
    characters of the current occurrence still to be dropped. *)
Fixpoint replace_from (old new : string) (skip : nat) (s : string) : string :=
  match s with
  | EmptyString => EmptyString
  | String c s' =>
      match skip with
      | S k => replace_from old new k s'
      | O =>
          if String.prefix old s
          then new ++ replace_from old new (String.length old - 1) s'
          else String c (replace_from old new 0 s')
      end
  end.

Definition replace (s old new : string) : string := replace_from old new 0 s.

(** [sep.join(l)] *)
Fixpoint join (sep : string) (l : list string) : string :=
  match l with
  | [] => ""
  | [x] => x
  | x :: rest => x ++ sep ++ join sep rest
  end.

(** The line feed of ["\n"]. *)
Definition nl : string := String (ascii_of_nat 10) EmptyString.

(** [x if x else None] on a [str | None]: the string when it is truthy. *)
Definition nonempty (o : option string) : option string :=
  match o with
  | Some EmptyString => None
  | _ => o
  end.

(** [k in s] for a set of strings. *)
Definition mem (k : string) (s : list string) : bool :=
  existsb (String.eqb k) s.

(** Truthiness of a [str | None]. *)
Definition truthy (o : option string) : bool :=
  match o with
  | None => false
  | Some s => negb (String.eqb s "")
  end.

(** Insertion-ordered dictionaries with string keys. *)
Definition dict (V : Type) : Type := list (string * V).

Definition keys {V} (d : dict V) : list string := map fst d.

Fixpoint get {V} (k : string) (d : dict V) : option V :=
  match d with
  | [] => None
  | (k', v) :: d' => if String.eqb k' k then Some v else get k d'
  end.

(** [d[k] = v] *)
Fixpoint set {V} (k : string) (v : V) (d : dict V) : dict V :=
  match d with
  | [] => [(k, v)]
  | (k', v') :: d' =>
      if String.eqb k' k then (k', v) :: d' else (k', v') :: set k v d'
  end.

(** [d.update(e)] *)
Definition update {V} (d e : dict V) : dict V :=
  fold_left (fun acc kv => set (fst kv) (snd kv) acc) e d.

End Py.

(** ** Class constants *)

Definition APPTAINER_KNOWN_ARGS : list string :=
  [ (* Global options *)
    "build-config"; "config"; "debug"; "help"; "nocolor"; "quiet"; "silent";
    "verbose"; "version";
    (* exec command specific options *)
    "add-caps"; "allow-setuid"; "app"; "apply-cgroups"; "bind";
    "blkio-weight"; "blkio-weight-device"; "boot"; "cleanenv"; "compat";
    "contain"; "containall"; "cpu-shares"; "cpus"; "cpuset-cpus";
    "cpuset-mems"; "device"; "device-cgroup-rule"; "disable-cache"; "dns";
    "docker-login"; "drop-caps"; "env"; "env-file"; "fakeroot"; "fusemount";
    "home"; "hostname"; "ipc"; "keep-privs"; "memory"; "memory-reservation";
    "memory-swap"; "mount"; "net"; "network"; "network-args"; "no-eval";
    "no-home"; "no-https"; "no-init"; "no-mount"; "no-privs"; "no-umask";
    "nv"; "oci"; "overlay"; "passwd"; "pem-path"; "pid"; "pids-limit"; "pwd";
    "rocm"; "scratch"; "security"; "shell"; "sif-fuse"; "tmp"; "tmpfs";
    "underlay"; "unsquash"; "user"; "userns"; "uts"; "vm"; "vm-cpu"; "vm-err";
    "vm-ip"; "vm-ram"; "workdir"; "writable"; "writable-tmpfs" ].

Definition NGPB_KNOWN_ARGS : list string := ["prmfile"; "pqrfile"; "run_log"].

(** ** Argument router *)

(** [str(value) if value is not None else None] *)
Definition stringify (value : Py.value) : option string :=
  if Py.is_none value then None else Some (Py.str value).

Definition sorted_kwargs : Type := Py.dict (option string) * list string.

(** One iteration of the loop of [sort_apptainer_kwargs]. *)
Definition sort_apptainer_step (acc : sorted_kwargs) (item : string * Py.value)
  : sorted_kwargs :=
  let '(apptainer_args, unknown_args) := acc in
  let '(key, value) := item in
  if Py.mem key APPTAINER_KNOWN_ARGS then
    (Py.set key (stringify value) apptainer_args, unknown_args)
  else if Py.startswith key "apptainer_" then
    let clean_key := Py.replace key "apptainer_" "" in
    if Py.mem clean_key APPTAINER_KNOWN_ARGS then
      (Py.set clean_key (stringify value) apptainer_args, unknown_args)
    else
      (apptainer_args, (unknown_args ++ [key])%list)
  else
    acc.

Definition sort_apptainer_kwargs (kwargs : Py.dict Py.value) : sorted_kwargs :=
  fold_left sort_apptainer_step kwargs ([], []).

(** One iteration of the loop of [sort_ngpb_kwargs]. *)
Definition sort_ngpb_step (acc : sorted_kwargs) (item : string * Py.value)
  : sorted_kwargs :=
  let '(ngpb_args, unknown_args) := acc in
  let '(key, value) := item in
  if Py.mem key NGPB_KNOWN_ARGS then
    (Py.set key (stringify value) ngpb_args, unknown_args)
  else if Py.startswith key "ngpb_" then
    let clean_key := Py.replace key "ngpb_" "" in
    if Py.mem clean_key NGPB_KNOWN_ARGS then
      (Py.set clean_key (stringify value) ngpb_args, unknown_args)
    else
      (ngpb_args, (unknown_args ++ [key])%list)
  else if negb (Py.mem key APPTAINER_KNOWN_ARGS)
          && negb (Py.startswith key "apptainer_") then
    (ngpb_args, (unknown_args ++ [key])%list)
  else
    acc.

Definition sort_ngpb_kwargs (kwargs : Py.dict Py.value) : sorted_kwargs :=
  fold_left sort_ngpb_step kwargs ([], []).

(** ** The host and the effects of a method *)

(** The classes of exception the module raises or catches.  All of them are
    subclasses of [Exception]. *)
Inductive exn_class : Type :=
| RuntimeError
| ValueError
| FileNotFoundError
| TimeoutExpired          (* subprocess.TimeoutExpired *)
| OSError
| OtherException.

(** An exception: its class and [str(e)]. *)
Record exn : Type := mkExn { exn_kind : exn_class; exn_text : string }.

Definition is_timeout (e : exn) : bool :=
  match exn_kind e with TimeoutExpired => true | _ => false end.

(** The arguments of one [subprocess.run] call ([check=False],
    [capture_output=True], [text=True], [shell=False] throughout). *)
Record run_args : Type := mkRun {
  run_cmd : list string;
  run_timeout : option Z;
  run_env : option (Py.dict string);
  run_cwd : option string
}.

(** [subprocess.CompletedProcess] *)
Record completed : Type := mkCompleted {
  returncode : Z;
  stdout : string;
  stderr : string
}.

(** What the operating system, the filesystem and pathlib answer. *)
Record Host : Type := mkHost {
  which : string -> exn + option string;        (* shutil.which *)
  run : run_args -> exn + completed;            (* subprocess.run *)
  open_file : string -> string -> option exn;   (* open(path, mode) and the write: the error, if any *)
  mkdir : string -> option exn;                 (* Path.mkdir(parents=True, exist_ok=True) *)
  path_exists : string -> bool;                 (* Path.exists *)
  environ : Py.dict string;                     (* os.environ *)
  getcwd : exn + string;                        (* os.getcwd() *)
  parent_exists : string -> exn + bool;         (* path.parent.exists() *)
  parent_writable : string -> exn + bool;       (* os.access(path.parent, os.W_OK) *)
  path_of : string -> string;                   (* str(Path(s)) *)
  path_join : string -> string -> string;       (* str(Path(p) / name) *)
  path_absolute : string -> string              (* str(Path(p).absolute()), where it answers *)
}.

(** The fields of an [ApptainerExecutor]. *)
Record executor : Type := mkExecutor {
  sif_path : string;
  n_proc : Z;
  workdir : string;
  env : Py.dict string;
  timeout : option Z;
  log_copy_dir : option string;
  apptainer_path : option string
}.

Definition set_apptainer_path (p : option string) (ex : executor) : executor :=
  mkExecutor (sif_path ex) (n_proc ex) (workdir ex) (env ex) (timeout ex)
             (log_copy_dir ex) p.

Inductive level : Type := INFO | WARNING | ERROR.

(** A diagnostic.  The two warnings about unknown arguments interpolate
    Python lists ([repr]), and the report of the version check interpolates
    [stdout.strip()] (Unicode whitespace); they are kept as data instead of
    rendered. *)
Inductive message : Type :=
| Text (s : string)
| UnknownApptainerArguments (unknown_args : list string)
| UnknownArguments (truly_unknown : list string)
| VersionCheckSuccessful (stdout : string).

(** The observable effects of a call, oldest first. *)
Inductive event : Type :=
| Logged (lvl : level) (msg : message)
| Written (path : string) (content : string)        (* mode "w" *)
| WarningAppended (path : string) (msg : message)   (* mode "a", the message and a newline *)
| DirectoryMade (path : string).

Record state : Type := mkState { self : executor; trace : list event }.

Inductive outcome (A : Type) : Type :=
| Return (a : A)
| Raised (e : exn).
Arguments Return {A} a.
Arguments Raised {A} e.

Definition M (A : Type) : Type := state -> outcome A * state.

Definition ret {A} (a : A) : M A := fun s => (Return a, s).

Definition bind {A B} (m : M A) (k : A -> M B) : M B :=
  fun s => match m s with
           | (Return a, s') => k a s'
           | (Raised e, s') => (Raised e, s')
           end.

Definition raise {A} (e : exn) : M A := fun s => (Raised e, s).

(** [try: body  except Exception as e: handler e] *)
Definition try_except {A} (body : M A) (handler : exn -> M A) : M A :=
  fun s => match body s with
           | (Return a, s') => (Return a, s')
           | (Raised e, s') => handler e s'
           end.

Definition emit (ev : event) : M unit :=
  fun s => (Return tt, mkState (self s) (trace s ++ [ev])%list).

Definition logger (lvl : level) (msg : string) : M unit :=
  emit (Logged lvl (Text msg)).

Definition get_self : M executor := fun s => (Return (self s), s).

Definition assign_apptainer_path (p : string) : M unit :=
  fun s => (Return tt, mkState (set_apptainer_path (Some p) (self s)) (trace s)).

(** A host call that answers or raises. *)
Definition host_call {A} (r : exn + A) : M A :=
  match r with
  | inl e => raise e
  | inr a => ret a
  end.

(** A host call that succeeds silently or raises. *)
Definition host_do (r : option exn) : M unit :=
  match r with
  | Some e => raise e
  | None => ret tt
  end.

Declare Scope py_scope.
Delimit Scope py_scope with py.
Notation "x <- m ;; k" := (bind m (fun x => k))
  (at level 61, m at next level, right associativity) : py_scope.
Notation "m ;; k" := (bind m (fun _ => k))
  (at level 61, right associativity) : py_scope.
Open Scope py_scope.

(** ** Construction *)

(** [__init__] followed by [_validate_init_params]. *)
Definition init (h : Host) (sif_path0 : string) (n_proc0 : Z) (workdir0 : string)
    (env0 : option (Py.dict string)) (timeout0 : option Z)
    (log_copy_dir0 : option string) : outcome executor :=
  let ex :=
    mkExecutor (path_of h sif_path0) n_proc0 (path_of h workdir0)
      (match env0 with Some e => e | None => [] end)
      timeout0
      (match Py.nonempty log_copy_dir0 with
       | Some d => Some (path_of h d)
       | None => None
       end)
      None in
  match mkdir h (workdir ex) with
  | Some e => Raised e
  | None =>
      if negb (path_exists h (sif_path ex)) then
        Raised (mkExn FileNotFoundError ("SIF file not found: " ++ sif_path ex))
      else if (n_proc ex <=? 0)%Z then
        Raised (mkExn ValueError
                  ("n_proc must be positive, got: " ++ Py.str_int (n_proc ex)))
      else
        match timeout ex with
        | Some t =>
            if (t <=? 0)%Z then
              Raised (mkExn ValueError
                        ("timeout must be positive, got: " ++ Py.str_int t))
            else Return ex
        | None => Return ex
        end
  end.

(** ** Binary resolution and validation *)

Definition find_apptainer_binary (h : Host) : M (option string) :=
  try_except
    (apptainer_path <- host_call (which h "apptainer") ;;
     match Py.nonempty apptainer_path with
     | Some p =>
         assign_apptainer_path p ;;
         logger INFO ("Found apptainer at: " ++ p) ;;
         ret (Some p)
     | None =>
         singularity_path <- host_call (which h "singularity") ;;
         match Py.nonempty singularity_path with
         | Some p =>
             logger WARNING
               "Apptainer not found, but found Singularity. Using Singularity as fallback." ;;
             assign_apptainer_path p ;;
             ret (Some p)
         | None => ret None
         end
     end)
    (fun e =>
       logger ERROR ("Error searching for apptainer binary: " ++ exn_text e) ;;
       ret None).

Definition not_found_msg : string :=
  "Apptainer not found in system PATH. "
  ++ "Please ensure Apptainer is installed and available. "
  ++ "You can install it using the ngpb4py-setup command or "
  ++ "visit https://apptainer.org/docs/admin/main/installation.html".

Definition validate_apptainer_availability (h : Host) : M unit :=
  ex <- get_self ;;
  (if negb (Py.truthy (apptainer_path ex))
   then (_ <- find_apptainer_binary h ;; ret tt)
   else ret tt) ;;
  ex <- get_self ;;
  match Py.nonempty (apptainer_path ex) with
  | None =>
      logger ERROR not_found_msg ;;
      raise (mkExn RuntimeError not_found_msg)
  | Some path =>
      try_except
        (result <- host_call (run h (mkRun [path; "--version"] (Some 10%Z) None None)) ;;
         (if negb (returncode result =? 0)%Z then
            let error_msg :=
              "Apptainer binary found at " ++ path ++ " "
              ++ "but is not functional. Exit code: "
              ++ Py.str_int (returncode result) ++ ". "
              ++ "Error: " ++ stderr result in
            logger ERROR error_msg ;;
            raise (mkExn RuntimeError error_msg)
          else ret tt) ;;
         emit (Logged INFO (VersionCheckSuccessful (stdout result))))
        (fun e =>
           if is_timeout e then
             let error_msg :=
               "Apptainer binary at " ++ path ++ " timed out during version check" in
             logger ERROR error_msg ;;
             raise (mkExn RuntimeError error_msg)
           else
             let error_msg :=
               "Error testing Apptainer functionality: " ++ exn_text e ++ ". "
               ++ "Please check your Apptainer installation." in
             logger ERROR error_msg ;;
             raise (mkExn RuntimeError error_msg))
  end.

(** ** Log files *)

Definition setup_logging (h : Host) (log_filename : string)
  : M (string * option string) :=
  ex <- get_self ;;
  let primary_log := path_join h (workdir ex) log_filename in
  match log_copy_dir ex with
  | Some d =>
      host_do (mkdir h d) ;;
      emit (DirectoryMade d) ;;
      ret (primary_log, Some (path_join h d log_filename))
  | None => ret (primary_log, None)
  end.

Definition create_logging_error_message (h : Host) (error : exn)
    (log_path : string) : exn + string :=
  match getcwd h with
  | inl e => inl e
  | inr cwd =>
      match parent_exists h log_path with
      | inl e => inl e
      | inr parent_found =>
          match parent_writable h log_path with
          | inl e => inl e
          | inr writable =>
              inr ("Logging error occurred: " ++ exn_text error ++ ". "
                   ++ "Attempted to write to: " ++ log_path ++ ". "
                   ++ "Please check directory permissions and available disk space. "
                   ++ "Current working directory: " ++ cwd ++ ". "
                   ++ "Log directory exists: " ++ Py.str (Py.VBool parent_found) ++ ". "
                   ++ "Log directory writable: " ++ Py.str (Py.VBool writable))
          end
      end
  end.

(** ** Command builder *)

(** One iteration of the loops over [apptainer_args.items()] and
    [ngpb_args.items()]. *)
Definition add_option (cmd : list string) (item : string * option string)
  : list string :=
  let '(key, value) := item in
  match value with
  | None => (cmd ++ [("--" ++ key)%string])%list
  | Some v => (cmd ++ [("--" ++ key)%string; v])%list
  end.

Definition build_command (h : Host) (ex : executor)
    (apptainer_args ngpb_args : Py.dict (option string)) : outcome (list string) :=
  match Py.nonempty (apptainer_path ex) with
  | None =>
      Raised (mkExn RuntimeError
                "Apptainer path not found. Call validate_apptainer_availability() first.")
  | Some path =>
      (* Start building command: apptainer exec *)
      let cmd := [path; "exec"] in
      (* Add default apptainer arguments *)
      let cmd := (cmd ++ ["--pwd"; "/App"])%list in
      let cmd := (cmd ++ ["--bind"; (path_absolute h (workdir ex) ++ ":/App")%string])%list in
      (* Add custom apptainer arguments *)
      let cmd := fold_left add_option apptainer_args cmd in
      (* Add SIF file *)
      let cmd := (cmd ++ [path_absolute h (sif_path ex)])%list in
      (* Add MPI execution *)
      let cmd := (cmd ++ ["mpirun"; "-np"; Py.str_int (n_proc ex)])%list in
      (* Add ngpb command *)
      let cmd := (cmd ++ ["ngpb"])%list in
      (* Add ngpb arguments *)
      let cmd := fold_left add_option ngpb_args cmd in
      Return cmd
  end.

(** ** Argument validation *)

Definition handle_apptainer_kwargs_errors (unknown_args : list string) : M unit :=
  match unknown_args with
  | [] => ret tt
  | _ :: _ => emit (Logged WARNING (UnknownApptainerArguments unknown_args))
  end.

Definition validate_all_arguments (h : Host) (kwargs : Py.dict Py.value) : M unit :=
  let '(apptainer_args, unknown_apptainer) := sort_apptainer_kwargs kwargs in
  let '(ngpb_args, unknown_ngpb) := sort_ngpb_kwargs kwargs in
  handle_apptainer_kwargs_errors unknown_apptainer ;;
  match unknown_ngpb with
  | [] => ret tt
  | _ :: _ =>
      (* Filter out apptainer args that were already processed *)
      let truly_unknown :=
        filter (fun arg => negb (Py.mem arg APPTAINER_KNOWN_ARGS)
                           && negb (Py.startswith arg "apptainer_"))
               unknown_ngpb in
      match truly_unknown with
      | [] => ret tt
      | _ :: _ =>
          let warning_msg := UnknownArguments truly_unknown in
          emit (Logged WARNING warning_msg) ;;
          try_except
            (ex <- get_self ;;
             let log_file := path_join h (workdir ex) "argument_warnings.log" in
             host_do (open_file h log_file "a") ;;
             emit (WarningAppended log_file warning_msg))
            (fun e =>
               logger ERROR
                 ("Could not write argument warnings to file: " ++ exn_text e))
      end
  end.

(** ** Execution *)

(** [f"{self.timeout}"] *)
Definition show_timeout (t : option Z) : string :=
  match t with
  | None => "None"
  | Some z => Py.str_int z
  end.

Definition lift {A} (o : outcome A) : M A := fun s => (o, s).

(** [with open(path, "w") as f: f.write(content)] and the [except] clause
    that reports a failure; building the report can itself raise. *)
Definition write_log (h : Host) (path content : string) : M unit :=
  try_except
    (host_do (open_file h path "w") ;;
     emit (Written path content))
    (fun e =>
       error_msg <- host_call (create_logging_error_message h e path) ;;
       logger ERROR error_msg).

(** The message of the failure raised on a non-zero return code. *)
Definition failed_msg (cmd : list string) (result : completed)
    (primary_log : string) : string :=
  "Apptainer execution failed with return code "
  ++ Py.str_int (returncode result) ++ ". "
  ++ "Command: " ++ Py.join " " cmd ++ ". "
  ++ "STDERR: " ++ stderr result ++ ". "
  ++ "STDOUT: " ++ stdout result ++ ". "
  ++ "Check log file at: " ++ primary_log.

Definition timed_out_msg (ex : executor) (cmd : list string) : string :=
  "Apptainer execution timed out after " ++ show_timeout (timeout ex)
  ++ " seconds. "
  ++ "Command: " ++ Py.join " " cmd ++ ". "
  ++ "Consider increasing the timeout parameter.".

Definition unexpected_msg (ex : executor) (cmd : list string) (e : exn) : string :=
  "Unexpected error during Apptainer execution: " ++ exn_text e ++ ". "
  ++ "Command: " ++ Py.join " " cmd ++ ". "
  ++ "Working directory: " ++ workdir ex ++ ". "
  ++ "SIF file: " ++ sif_path ex.

(** The [try] statement of [execute_command]: the spawn, the two log writes
    and the test of the return code, with its two [except] clauses. *)
Definition run_and_log (h : Host) (cmd : list string)
    (primary_log : string) (copy_log : option string) : M completed :=
  ex <- get_self ;;
  try_except
    ((* Prepare environment *)
     let exec_env := Py.update (environ h) (env ex) in
     (* Execute command *)
     result <- host_call
                 (run h (mkRun cmd (timeout ex) (Some exec_env) (Some (workdir ex)))) ;;
     (* Write logs *)
     let log_content :=
       "Command: " ++ Py.join " " cmd ++ Py.nl
       ++ "Return code: " ++ Py.str_int (returncode result) ++ Py.nl
       ++ "STDOUT:" ++ Py.nl ++ stdout result ++ Py.nl
       ++ "STDERR:" ++ Py.nl ++ stderr result ++ Py.nl in
     (* Write to primary log *)
     write_log h primary_log log_content ;;
     (* Write to copy log if specified *)
     match copy_log with
     | Some copy => write_log h copy log_content
     | None => ret tt
     end ;;
     (* Handle execution errors *)
     if negb (returncode result =? 0)%Z then
       let error_msg := failed_msg cmd result primary_log in
       logger ERROR error_msg ;;
       raise (mkExn RuntimeError error_msg)
     else
       logger INFO "Apptainer execution completed successfully" ;;
       ret result)
    (fun e =>
       if is_timeout e then
         let error_msg := timed_out_msg ex cmd in
         logger ERROR error_msg ;;
         raise (mkExn RuntimeError error_msg)
       else
         let error_msg := unexpected_msg ex cmd e in
         logger ERROR error_msg ;;
         raise (mkExn RuntimeError error_msg)).

Definition execute_command (h : Host) (kwargs : Py.dict Py.value) : M completed :=
  (* Validate apptainer availability *)
  validate_apptainer_availability h ;;
  (* Validate arguments *)
  validate_all_arguments h kwargs ;;
  (* Sort arguments *)
  let '(apptainer_args, _) := sort_apptainer_kwargs kwargs in
  let '(ngpb_args, _) := sort_ngpb_kwargs kwargs in
  (* Build command *)
  ex <- get_self ;;
  cmd <- lift (build_command h ex apptainer_args ngpb_args) ;;
  (* Set up logging *)
  logs <- setup_logging h "apptainer_execution.log" ;;
  let '(primary_log, copy_log) := logs in
  logger INFO ("Executing command: " ++ Py.join " " cmd) ;;
  run_and_log h cmd primary_log copy_log.

(** ** Vocabulary of the properties *)

(** The two destinations of the router. *)
Inductive destination : Type := Runtime | Program.

Definition other (d : destination) : destination :=
  match d with Runtime => Program | Program => Runtime end.

Definition known (d : destination) : list string :=
  match d with Runtime => APPTAINER_KNOWN_ARGS | Program => NGPB_KNOWN_ARGS end.

Definition dest_prefix (d : destination) : string :=
  match d with Runtime => "apptainer_" | Program => "ngpb_" end.

Definition sort_kwargs (d : destination) : Py.dict Py.value -> sorted_kwargs :=
  match d with Runtime => sort_apptainer_kwargs | Program => sort_ngpb_kwargs end.

(** The name under which destination [d] accepts [key], if it does: the two
    accepting branches of the sorting loops. *)
Definition accepted_as (d : destination) (key : string) : option string :=
  if Py.mem key (known d) then Some key
  else if Py.startswith key (dest_prefix d) then
    let clean_key := Py.replace key (dest_prefix d) "" in
    if Py.mem clean_key (known d) then Some clean_key else None
  else None.

(** [key] with the literal prefix [p] removed from its front, when it starts
    with it. *)
Fixpoint strip_prefix (p key : string) : option string :=
  match p, key with
  | EmptyString, _ => Some key
  | String a p', String b key' =>
      if Ascii.eqb a b then strip_prefix p' key' else None
  | String _ _, EmptyString => None
  end.

(** The tokens one classified option contributes to the command. *)
Definition option_tokens (item : string * option string) : list string :=
  match snd item with
  | None => ["--" ++ fst item]
  | Some v => ["--" ++ fst item; v]
  end.

(** The fixed tokens before the runtime options. *)
Definition scaffold_head (h : Host) (ex : executor) (binary : string) : list string :=
  [binary; "exec"; "--pwd"; "/App"; "--bind"; path_absolute h (workdir ex) ++ ":/App"].

(** The fixed tokens between the runtime options and the program name. *)
Definition scaffold_launcher (h : Host) (ex : executor) : list string :=
  [path_absolute h (sif_path ex); "mpirun"; "-np"; Py.str_int (n_proc ex)].

Definition keys_disjoint {V W} (d1 : Py.dict V) (d2 : Py.dict W) : bool :=
  forallb (fun k => negb (Py.mem k (Py.keys d2))) (Py.keys d1).

(** [needle] occurs in [hay]. *)
Definition embeds (needle hay : string) : Prop :=
  exists before after, hay = before ++ needle ++ after.

(** The host [h] with other answers to opening and writing files. *)
Definition with_open_file (f : string -> string -> option exn) (h : Host) : Host :=
  mkHost (which h) (run h) f (mkdir h) (path_exists h) (environ h) (getcwd h)
         (parent_exists h) (parent_writable h) (path_of h) (path_join h)
         (path_absolute h).

(** The arguments of the spawn of [execute_command]. *)
Definition spawn_args (h : Host) (ex : executor) (cmd : list string) : run_args :=
  mkRun cmd (timeout ex) (Some (Py.update (environ h) (env ex))) (Some (workdir ex)).

(** The log path in the working directory. *)
Definition primary_log_of (h : Host) (ex : executor) : string :=
  path_join h (workdir ex) "apptainer_execution.log".

(** The loop body of destination [d]. *)
Definition sort_step (d : destination)
  : sorted_kwargs -> string * Py.value -> sorted_kwargs :=
  match d with Runtime => sort_apptainer_step | Program => sort_ngpb_step end.

(** What one option does to the output mapping of destination [d]. *)
Definition route (d : destination) (args : Py.dict (option string))
    (item : string * Py.value) : Py.dict (option string) :=
  match accepted_as d (fst item) with
  | Some k => Py.set k (stringify (snd item)) args
  | None => args
  end.

(** Hosts for the worked examples: Apptainer is installed at
    [/usr/bin/apptainer], its version query succeeds, the simulation exits
    with status [rc], and every file operation succeeds. *)
Definition host_exiting (rc : Z) : Host :=
  mkHost
    (fun name => if String.eqb name "apptainer"
                 then inr (Some "/usr/bin/apptainer") else inr None)
    (fun a => match run_cmd a with
              | [_; "--version"] => inr (mkCompleted 0 "apptainer version 1.2.3" "")
              | _ => if (rc =? 0)%Z
                     then inr (mkCompleted rc "Success" "")
                     else inr (mkCompleted rc "" "Error occurred")
              end)
    (fun _ _ => None)
    (fun _ => None)
    (fun _ => true)
    [("PATH", "/usr/bin")]
    (inr "/home/user")
    (fun _ => inr true)
    (fun _ => inr true)
    (fun p => p)
    (fun p name => p ++ "/" ++ name)
    (fun p => p).

Definition demo_host : Host := host_exiting 1.

(** Every attempt to open a file is refused. *)
Definition refuse_files (path mode : string) : option exn :=
  Some (mkExn OSError "Permission denied").

Definition demo_executor : executor :=
  mkExecutor "/data/test.sif" 2 "/work" [] None None None.

(** The option mapping of the documented scenario. *)
Definition scenario_kwargs : Py.dict Py.value :=
  [("bind", Py.VStr "/tmp:/tmp"); ("prmfile", Py.VStr "config.prm")].

(** The host [h] with another search path. *)
Definition with_which (w : string -> exn + option string) (h : Host) : Host :=
  mkHost w (run h) (open_file h) (mkdir h) (path_exists h) (environ h)
         (getcwd h) (parent_exists h) (parent_writable h) (path_of h)
         (path_join h) (path_absolute h).

(** The host [h] with other answers to spawning a subprocess. *)
Definition with_run (r : run_args -> exn + completed) (h : Host) : Host :=
  mkHost (which h) r (open_file h) (mkdir h) (path_exists h) (environ h)
         (getcwd h) (parent_exists h) (parent_writable h) (path_of h)
         (path_join h) (path_absolute h).

(** The version query succeeds and the simulation outlives its timeout. *)
Definition run_timing_out (a : run_args) : exn + completed :=
  match run_cmd a with
  | [_; "--version"] => inr (mkCompleted 0 "apptainer version 1.2.3" "")
  | _ => inl (mkExn TimeoutExpired "Command 'test' timed out after 60 seconds")
  end.

(** The names destination [d] reports as unrecognized: the appending
    branches of the two sorting loops. *)
Definition reported (d : destination) (key : string) : bool :=
  match d with
  | Runtime =>
      negb (Py.mem key APPTAINER_KNOWN_ARGS)
      && Py.startswith key "apptainer_"
      && negb (Py.mem (Py.replace key "apptainer_" "") APPTAINER_KNOWN_ARGS)
  | Program =>
      negb (Py.mem key NGPB_KNOWN_ARGS)
      && (if Py.startswith key "ngpb_"
          then negb (Py.mem (Py.replace key "ngpb_" "") NGPB_KNOWN_ARGS)
          else negb (Py.mem key APPTAINER_KNOWN_ARGS)
               && negb (Py.startswith key "apptainer_"))
  end.

(** The filter of [validate_all_arguments]. *)
Definition not_apptainer_name (arg : string) : bool :=
  negb (Py.mem arg APPTAINER_KNOWN_ARGS) && negb (Py.startswith arg "apptainer_").

(** The number of tokens a classified mapping contributes to the command. *)
Definition token_count (opts : Py.dict (option string)) : nat :=
  length opts + length (filter (fun item => match snd item with
                                            | Some _ => true
                                            | None => false
                                            end) opts).

(** [m] takes every state to a state related to it by [R]. *)
Definition respects (R : state -> state -> Prop) {A} (m : M A) : Prop :=
  forall s, R s (snd (m s)).

(** The fields of an executor that are set at construction. *)
Definition config (ex : executor) : executor := set_apptainer_path None ex.

Definition same_config (s s' : state) : Prop :=
  config (self s') = config (self s).

Definition is_written (ev : event) : bool :=
  match ev with Written _ _ => true | _ => false end.

(** The execution logs written so far. *)
Definition written (s : state) : list event := filter is_written (trace s).

Definition same_written (s s' : state) : Prop := written s' = written s.

(** The record [execute_command] writes to its log files. *)
Definition log_record (cmd : list string) (result : completed) : string :=
  "Command: " ++ Py.join " " cmd ++ Py.nl
  ++ "Return code: " ++ Py.str_int (returncode result) ++ Py.nl
  ++ "STDOUT:" ++ Py.nl ++ stdout result ++ Py.nl
  ++ "STDERR:" ++ Py.nl ++ stderr result ++ Py.nl.

(** The arguments of the version query of [validate_apptainer_availability]. *)
Definition version_args (path : string) : run_args :=
  mkRun [path; "--version"] (Some 10%Z) None None.


(** ** The installer entry point ([src/ngpb4py/setup.py]) *)

Module Setup.

(** What the operating system answers to [main]. *)
Record Host : Type := mkHost {
  script_path : string;                  (* os.path.join(os.path.dirname(__file__), "setup.sh") *)
  exists_ : string -> bool;              (* os.path.exists *)
  run_bash : list string -> exn + Z      (* the spawn: its exception, or the exit status *)
}.

(** A line printed to [sys.stderr].  The second one interpolates the
    [CalledProcessError], whose text contains the [repr] of the command; it
    is kept as data. *)
Inductive printed : Type :=
| SetupNotFound (path : string)
| ErrorRunning (cmd : list string) (status : Z).

(** How [main] ends. *)
Inductive termination : Type :=
| Returned
| SystemExit (code : Z)
| Uncaught (e : exn).

(** The result of [subprocess.run(cmd, check=True)]: a non-zero exit status
    is raised as a [CalledProcessError] that carries it. *)
Inductive checked : Type :=
| Completed
| CalledProcessError (returncode : Z)
| OtherError (e : exn).

Definition run_checked (h : Host) (cmd : list string) : checked :=
  match run_bash h cmd with
  | inl e => OtherError e
  | inr status =>
      if (status =? 0)%Z then Completed else CalledProcessError status
  end.

Definition main (h : Host) : termination * list printed :=
  if negb (exists_ h (script_path h)) then
    (SystemExit 1, [SetupNotFound (script_path h)])
  else
    match run_checked h ["bash"; script_path h] with
    | Completed => (Returned, [])
    | CalledProcessError returncode =>
        (SystemExit returncode, [ErrorRunning ["bash"; script_path h] returncode])
    | OtherError e => (Uncaught e, [])
    end.

End Setup.

(** The write of a log to [path] succeeds, or its failure is reported: the
    [except] clause of the write can build its message. *)
Definition write_caught (h : Host) (path : string) : bool :=
  match open_file h path "w" with
  | None => true
  | Some e =>
      match create_logging_error_message h e path with
      | inr _ => true
      | inl _ => false
      end
  end.

(** The host [h] with another answer to [os.getcwd()]. *)
Definition with_getcwd (c : exn + string) (h : Host) : Host :=
  mkHost (which h) (run h) (open_file h) (mkdir h) (path_exists h) (environ h)
         c (parent_exists h) (parent_writable h) (path_of h)
         (path_join h) (path_absolute h).

(** A host whose current directory has been removed and that refuses every
    file: the simulation exits with status [rc], its log cannot be written,
    and [os.getcwd()] raises while the failure is being reported. *)
Definition stranded_host (rc : Z) : Host :=
  with_getcwd (inl (mkExn FileNotFoundError "[Errno 2] No such file or directory"))
              (with_open_file refuse_files (host_exiting rc)).

(** [needle in hay], decided. *)
Fixpoint contains (needle hay : string) : bool :=
  String.prefix needle hay
  || match hay with
     | EmptyString => false
     | String _ rest => contains needle rest
     end.

(** The options of the input that destination [d] accepts, under the
    accepted name and with the value stringified, in input order. *)
Definition classified (d : destination) (kwargs : Py.dict Py.value)
  : Py.dict (option string) :=
  flat_map (fun item => match accepted_as d (fst item) with
                        | Some k => [(k, stringify (snd item))]
                        | None => []
                        end) kwargs.

(** The names under which destination [d] accepts the options of the input. *)
Definition accepted_names (d : destination) (kwargs : Py.dict Py.value)
  : list string :=
  Py.keys (classified d kwargs).

(** The tokens an option of the input puts on the command through
    destination [d]: none when [d] does not accept it, the bare flag when
    its value is [None], the flag and [str(value)] otherwise. *)
Definition rendered (d : destination) (item : string * Py.value) : list string :=
  match accepted_as d (fst item) with
  | None => []
  | Some k =>
      if Py.is_none (snd item)
      then ["--" ++ k]
      else ["--" ++ k; Py.str (snd item)]
  end.

(** * Properties *)

(** ** Worked examples of the router (from the test suite) *)

Example sort_apptainer_kwargs_valid :
  sort_apptainer_kwargs
    [("bind", Py.VStr "/tmp:/tmp"); ("env", Py.VStr "VAR=value");
     ("cleanenv", Py.VBool true); ("invalid_arg", Py.VStr "test")]
  = ([("bind", Some "/tmp:/tmp"); ("env", Some "VAR=value");
      ("cleanenv", Some "True")], []).
Proof. reflexivity. Qed.

Example sort_apptainer_kwargs_prefixed :
  sort_apptainer_kwargs
    [("apptainer_bind", Py.VStr "/tmp:/tmp"); ("apptainer_invalid", Py.VStr "test")]
  = ([("bind", Some "/tmp:/tmp")], ["apptainer_invalid"]).
Proof. reflexivity. Qed.

Example sort_ngpb_kwargs_valid :
  sort_ngpb_kwargs
    [("prmfile", Py.VStr "config.prm"); ("pqrfile", Py.VStr "input.pqr");
     ("invalid_ngpb", Py.VStr "test")]
  = ([("prmfile", Some "config.prm"); ("pqrfile", Some "input.pqr")],
     ["invalid_ngpb"]).
Proof. reflexivity. Qed.

Example sort_ngpb_kwargs_prefixed :
  sort_ngpb_kwargs
    [("ngpb_prmfile", Py.VStr "config.prm"); ("ngpb_invalid", Py.VStr "test")]
  = ([("prmfile", Some "config.prm")], ["ngpb_invalid"]).
Proof. reflexivity. Qed.

Example sort_mixed_argument_types :
  fst (sort_apptainer_kwargs
         [("bind", Py.VStr "/tmp:/tmp"); ("debug", Py.VBool true);
          ("verbose", Py.VNone); ("memory", Py.VInt 1024)])
  = [("bind", Some "/tmp:/tmp"); ("debug", Some "True"); ("verbose", None);
     ("memory", Some "1024")].
Proof. reflexivity. Qed.

(** ** Dictionaries *)

Section DictFacts.
Context {V : Type}.
Implicit Types (d : Py.dict V) (k : string) (v : V).

Lemma get_set_same k v d : Py.get k (Py.set k v d) = Some v.
Proof.
  induction d as [|[k' v'] d IH]; simpl.
  - now rewrite String.eqb_refl.
  - destruct (String.eqb k' k) eqn:E; simpl; rewrite E; auto.
Qed.

Lemma get_set_other k k' v d :
  k' <> k -> Py.get k (Py.set k' v d) = Py.get k d.
Proof.
  intros Hne. induction d as [|[k0 v0] d IH]; simpl.
  - destruct (String.eqb_spec k' k); congruence.
  - destruct (String.eqb_spec k0 k') as [->|]; simpl.
    + destruct (String.eqb_spec k' k); congruence.
    + now rewrite IH.
Qed.

Lemma keys_set k v d x :
  In x (Py.keys (Py.set k v d)) <-> x = k \/ In x (Py.keys d).
Proof.
  induction d as [|[k0 v0] d IH]; simpl.
  - intuition.
  - destruct (String.eqb_spec k0 k) as [->|]; simpl; intuition.
Qed.

Lemma get_None k d : Py.get k d = None <-> ~ In k (Py.keys d).
Proof.
  induction d as [|[k0 v0] d IH]; simpl.
  - intuition.
  - destruct (String.eqb_spec k0 k) as [->|]; intuition congruence.
Qed.

End DictFacts.

Lemma mem_In k l : Py.mem k l = true <-> In k l.
Proof.
  unfold Py.mem. rewrite existsb_exists. split.
  - intros (x & Hx & E). apply String.eqb_eq in E. now subst.
  - intros H. exists k. split; [assumption | apply String.eqb_refl].
Qed.

Lemma mem_forallb (f : string -> bool) l k :
  forallb f l = true -> Py.mem k l = true -> f k = true.
Proof.
  intros Hall Hk. rewrite forallb_forall in Hall. apply Hall. now apply mem_In.
Qed.

(** ** The router, one destination at a time *)

Lemma sort_kwargs_fold d kwargs :
  sort_kwargs d kwargs = fold_left (sort_step d) kwargs ([], []).
Proof. now destruct d. Qed.

Lemma sort_step_fst d acc item :
  fst (sort_step d acc item) = route d (fst acc) item.
Proof.
  destruct acc as [args unknown], item as [key value].
  destruct d;
    unfold route, accepted_as, sort_step, sort_apptainer_step, sort_ngpb_step;
    cbn [fst snd known dest_prefix].
  - destruct (Py.mem key APPTAINER_KNOWN_ARGS); [reflexivity|].
    destruct (Py.startswith key "apptainer_"); [|reflexivity].
    now destruct (Py.mem _ APPTAINER_KNOWN_ARGS).
  - destruct (Py.mem key NGPB_KNOWN_ARGS); [reflexivity|].
    destruct (Py.startswith key "ngpb_").
    + now destruct (Py.mem _ NGPB_KNOWN_ARGS).
    + now destruct (negb _ && negb _).
Qed.

Lemma fold_sort_step_fst d kwargs acc :
  fst (fold_left (sort_step d) kwargs acc) = fold_left (route d) kwargs (fst acc).
Proof.
  revert acc. induction kwargs as [|item kwargs IH]; intros acc; simpl.
  - reflexivity.
  - now rewrite IH, sort_step_fst.
Qed.

Lemma sort_kwargs_fst d kwargs :
  fst (sort_kwargs d kwargs) = fold_left (route d) kwargs [].
Proof. now rewrite sort_kwargs_fold, fold_sort_step_fst. Qed.

Lemma accepted_as_known d key k :
  accepted_as d key = Some k -> Py.mem k (known d) = true.
Proof.
  unfold accepted_as.
  destruct (Py.mem key (known d)) eqn:E1.
  - intros [= <-]. exact E1.
  - destruct (Py.startswith key (dest_prefix d)); [|discriminate].
    destruct (Py.mem (Py.replace key (dest_prefix d) "") (known d)) eqn:E2.
    + intros [= <-]. exact E2.
    + discriminate.
Qed.

Lemma accepted_as_exact d key :
  Py.mem key (known d) = true -> accepted_as d key = Some key.
Proof. unfold accepted_as. now intros ->. Qed.

(** Every key of a destination's output is in its allow-list. *)
Lemma route_keys_known d kwargs : forall args,
  (forall k, In k (Py.keys args) -> Py.mem k (known d) = true) ->
  forall k, In k (Py.keys (fold_left (route d) kwargs args)) ->
            Py.mem k (known d) = true.
Proof.
  induction kwargs as [|item kwargs IH]; intros args Hargs k; simpl.
  - apply Hargs.
  - apply IH. intros k0. unfold route.
    destruct (accepted_as d (fst item)) eqn:E; [|apply Hargs].
    rewrite keys_set. intros [->|H]; [eapply accepted_as_known; eauto | auto].
Qed.

Lemma sort_kwargs_keys_known d kwargs k :
  In k (Py.keys (fst (sort_kwargs d kwargs))) -> Py.mem k (known d) = true.
Proof.
  rewrite sort_kwargs_fst. apply route_keys_known. intros ? [].
Qed.

(** A value stays until a later option is accepted under the same name. *)
Lemma route_get_stable d k x kwargs : forall args,
  Py.get k args = Some x ->
  (forall item, In item kwargs -> accepted_as d (fst item) <> Some k) ->
  Py.get k (fold_left (route d) kwargs args) = Some x.
Proof.
  induction kwargs as [|item kwargs IH]; intros args Hget Hlater; simpl.
  - assumption.
  - apply IH; [|intros; apply Hlater; now right].
    unfold route. pose proof (Hlater item (or_introl eq_refl)) as Hne.
    destruct (accepted_as d (fst item)) as [k'|]; [|assumption].
    rewrite get_set_other; [assumption | congruence].
Qed.

(** No name is in both allow-lists. *)
Lemma known_disjoint d k :
  Py.mem k (known d) = true -> Py.mem k (known (other d)) = false.
Proof.
  intros H. apply negb_true_iff.
  revert H. apply (mem_forallb (fun k => negb (Py.mem k (known (other d))))).
  destruct d; vm_compute; reflexivity.
Qed.

Lemma route_keys_mono d k kwargs : forall args,
  In k (Py.keys args) -> In k (Py.keys (fold_left (route d) kwargs args)).
Proof.
  induction kwargs as [|item kwargs IH]; intros args Hin; simpl.
  - assumption.
  - apply IH. unfold route.
    destruct (accepted_as d (fst item)); [|assumption].
    apply keys_set. now right.
Qed.

(** A name that [sort_ngpb_kwargs] reports either carries the program prefix
    or is outside the runtime allow-list. *)
Lemma ngpb_unknown_flagged x kwargs : forall acc,
  In x (snd (fold_left sort_ngpb_step kwargs acc)) ->
  In x (snd acc)
  \/ Py.startswith x "ngpb_" = true
  \/ Py.mem x APPTAINER_KNOWN_ARGS = false.
Proof.
  induction kwargs as [|[key value] kwargs IH]; intros [args unknown];
    cbn [fold_left].
  - now left.
  - intros H. apply IH in H. destruct H as [H|H]; [|now right].
    revert H. unfold sort_ngpb_step.
    destruct (Py.mem key NGPB_KNOWN_ARGS); cbn [snd]; [now left|].
    destruct (Py.startswith key "ngpb_") eqn:Epre.
    + destruct (Py.mem _ NGPB_KNOWN_ARGS); cbn [snd]; [now left|].
      rewrite in_app_iff. intros [H|[<-|[]]]; auto.
    + destruct (Py.mem key APPTAINER_KNOWN_ARGS) eqn:Eapp; cbn [negb andb snd];
        [now left|].
      destruct (Py.startswith key "apptainer_"); cbn [negb snd]; [now left|].
      rewrite in_app_iff. intros [H|[<-|[]]]; auto.
Qed.

(** ** Claims about the router *)

(** C6.  For every input option mapping, the mapping of runtime options
    produced by [sort_apptainer_kwargs] and the mapping of program options
    produced by [sort_ngpb_kwargs] have no key in common. *)
Theorem sorted_outputs_disjoint (kwargs : Py.dict Py.value) :
  keys_disjoint (fst (sort_apptainer_kwargs kwargs))
                (fst (sort_ngpb_kwargs kwargs)) = true.
Proof.
  unfold keys_disjoint. apply forallb_forall. intros k Hk.
  apply (sort_kwargs_keys_known Runtime) in Hk.
  apply known_disjoint in Hk. cbn [other known] in Hk.
  apply negb_true_iff.
  destruct (Py.mem k (Py.keys (fst (sort_ngpb_kwargs kwargs)))) eqn:E;
    [|reflexivity].
  apply mem_In, (sort_kwargs_keys_known Program) in E.
  cbn [known] in E. congruence.
Qed.

(** C9.  A name of the runtime (Apptainer) allow-list is put by the
    program-side sorting neither into its output mapping nor into its list of
    unrecognized names, whatever the input mapping. *)
Theorem runtime_name_dropped_by_program_sort
    (kwargs : Py.dict Py.value) (k : string) :
  Py.mem k APPTAINER_KNOWN_ARGS = true ->
  ~ In k (Py.keys (fst (sort_ngpb_kwargs kwargs)))
  /\ ~ In k (snd (sort_ngpb_kwargs kwargs)).
Proof.
  intros Hk. split.
  - intros Hin. apply (sort_kwargs_keys_known Program) in Hin.
    apply (known_disjoint Runtime) in Hk. cbn [other known] in *. congruence.
  - intros Hin. apply ngpb_unknown_flagged in Hin.
    destruct Hin as [[]|[Hpre|Hmem]]; [|congruence].
    assert (negb (Py.startswith k "ngpb_") = true) as Hno.
    { revert Hk. apply (mem_forallb (fun k => negb (Py.startswith k "ngpb_"))).
      vm_compute. reflexivity. }
    rewrite Hpre in Hno. discriminate.
Qed.

Lemma runtime_name_dropped_by_program_sort_witness :
  Py.mem "bind" APPTAINER_KNOWN_ARGS = true
  /\ ~ In "bind" (Py.keys (fst (sort_ngpb_kwargs scenario_kwargs)))
  /\ ~ In "bind" (snd (sort_ngpb_kwargs scenario_kwargs)).
Proof.
  split; [reflexivity|].
  apply (runtime_name_dropped_by_program_sort scenario_kwargs "bind").
  reflexivity.
Defined.

(** C5, as amended.  A name of a destination's allow-list that occurs in the
    input mapping is a key of that destination's output mapping and is not a
    key of the other destination's; its value there is its own value
    stringified (or kept absent) provided no later option of the mapping is
    accepted by that destination under the same name. *)
Theorem allowlisted_name_routed (d : destination)
    (before after : Py.dict Py.value) (k : string) (v : Py.value) :
  Py.mem k (known d) = true ->
  In k (Py.keys (fst (sort_kwargs d (before ++ (k, v) :: after)%list)))
  /\ ~ In k (Py.keys (fst (sort_kwargs (other d) (before ++ (k, v) :: after)%list)))
  /\ ((forall item, In item after -> accepted_as d (fst item) <> Some k) ->
      Py.get k (fst (sort_kwargs d (before ++ (k, v) :: after)%list))
      = Some (stringify v)).
Proof.
  intros Hk.
  assert (forall args,
            fold_left (route d) (before ++ (k, v) :: after)%list args
            = fold_left (route d) after
                (Py.set k (stringify v) (fold_left (route d) before args)))
    as Hsplit.
  { intros args. rewrite fold_left_app. cbn [fold_left].
    unfold route at 2. cbn [fst snd]. now rewrite (accepted_as_exact d k Hk). }
  split; [|split].
  - rewrite sort_kwargs_fst, Hsplit. apply route_keys_mono, keys_set. now left.
  - intros Hin. apply sort_kwargs_keys_known in Hin.
    apply known_disjoint in Hk. congruence.
  - intros Hlater. rewrite sort_kwargs_fst, Hsplit.
    apply route_get_stable; [apply get_set_same | assumption].
Qed.

Lemma allowlisted_name_routed_witness :
  Py.mem "bind" (known Runtime) = true
  /\ In "bind" (Py.keys (fst (sort_apptainer_kwargs scenario_kwargs)))
  /\ ~ In "bind" (Py.keys (fst (sort_ngpb_kwargs scenario_kwargs)))
  /\ Py.get "bind" (fst (sort_apptainer_kwargs scenario_kwargs))
     = Some (Some "/tmp:/tmp").
Proof.
  split; [reflexivity|].
  pose proof (allowlisted_name_routed Runtime []
                [("prmfile", Py.VStr "config.prm")] "bind"
                (Py.VStr "/tmp:/tmp") eq_refl) as (Hin & Hout & Hval).
  split; [exact Hin|]. split; [exact Hout|].
  apply Hval. intros item [<-|[]]. vm_compute. discriminate.
Defined.

(** C5, as stated, fails: a later prefixed alias overwrites the value of an
    allow-listed name. *)
Lemma alias_overwrites_value :
  Py.mem "bind" APPTAINER_KNOWN_ARGS = true
  /\ Py.get "bind"
       (fst (sort_apptainer_kwargs
               [("bind", Py.VStr "/a:/a"); ("apptainer_bind", Py.VStr "/b:/b")]))
     = Some (Some "/b:/b")
  /\ Py.get "bind"
       (fst (sort_apptainer_kwargs
               [("bind", Py.VStr "/a:/a"); ("apptainer_bind", Py.VStr "/b:/b")]))
     <> Some (stringify (Py.VStr "/a:/a")).
Proof.
  split; [reflexivity|]. split; [reflexivity|].
  vm_compute. discriminate.
Qed.

(** A prefixed name whose remainder is in the allow-list is accepted under
    the remainder. *)
Lemma prefixed_known_accepted d c :
  Py.mem c (known d) = true -> accepted_as d (dest_prefix d ++ c) = Some c.
Proof.
  intros Hc.
  assert (match accepted_as d (dest_prefix d ++ c) with
          | Some c' => String.eqb c' c
          | None => false
          end = true) as H.
  { revert Hc.
    apply (mem_forallb
             (fun c => match accepted_as d (dest_prefix d ++ c) with
                       | Some c' => String.eqb c' c
                       | None => false
                       end)).
    destruct d; vm_compute; reflexivity. }
  destruct (accepted_as d (dest_prefix d ++ c)); [|discriminate].
  apply String.eqb_eq in H. now subst.
Qed.

(** C2.  The name [apptainer_apptainer_bind] begins with the runtime prefix
    and its remainder [apptainer_bind] is not in the allow-list, yet it is
    accepted under [bind] and not reported: [str.replace] removes every
    occurrence of the prefix, not only the leading one.  The program side
    does the same with [ngpb_ngpb_prmfile]. *)
Theorem prefix_removed_everywhere :
  (strip_prefix "apptainer_" "apptainer_apptainer_bind" = Some "apptainer_bind"
   /\ Py.mem "apptainer_bind" APPTAINER_KNOWN_ARGS = false
   /\ sort_apptainer_kwargs [("apptainer_apptainer_bind", Py.VStr "/data:/data")]
      = ([("bind", Some "/data:/data")], []))
  /\ (strip_prefix "ngpb_" "ngpb_ngpb_prmfile" = Some "ngpb_prmfile"
      /\ Py.mem "ngpb_prmfile" NGPB_KNOWN_ARGS = false
      /\ sort_ngpb_kwargs [("ngpb_ngpb_prmfile", Py.VStr "config.prm")]
         = ([("prmfile", Some "config.prm")], [])).
Proof. repeat split; reflexivity. Qed.

(** ** The command builder *)

Lemma add_options_tokens (opts : Py.dict (option string)) : forall cmd,
  fold_left add_option opts cmd = (cmd ++ flat_map option_tokens opts)%list.
Proof.
  induction opts as [|[key value] opts IH]; intros cmd; cbn [fold_left flat_map].
  - now rewrite app_nil_r.
  - rewrite IH. unfold add_option, option_tokens. cbn [fst snd].
    destruct value; now rewrite <- app_assoc.
Qed.

(** The whole vector, once the binary is resolved. *)
Lemma build_command_resolved h ex apptainer_args ngpb_args binary :
  Py.nonempty (apptainer_path ex) = Some binary ->
  build_command h ex apptainer_args ngpb_args
  = Return (scaffold_head h ex binary
            ++ flat_map option_tokens apptainer_args
            ++ scaffold_launcher h ex
            ++ "ngpb" :: flat_map option_tokens ngpb_args)%list.
Proof.
  intros Hres. unfold build_command. rewrite Hres.
  rewrite !add_options_tokens. unfold scaffold_head, scaffold_launcher.
  f_equal. cbn [app]. rewrite <- !app_assoc. reflexivity.
Qed.

Lemma nonempty_truthy o : Py.truthy o = false <-> Py.nonempty o = None.
Proof.
  destruct o as [[|c s]|]; cbn; intuition congruence.
Qed.

(** C4.  With the binary resolved, [build_command] returns a vector whose
    first token is the binary and in which the program name [ngpb] comes
    right before the tokens of the program options, so that it is the last
    token when there are none; with no option at all the vector is the fixed
    scaffolding. *)
Theorem build_command_layout (h : Host) (ex : executor)
    (apptainer_args ngpb_args : Py.dict (option string)) (binary : string) :
  Py.nonempty (apptainer_path ex) = Some binary ->
  exists cmd before,
    build_command h ex apptainer_args ngpb_args = Return cmd
    /\ nth_error cmd 0 = Some binary
    /\ before = (scaffold_head h ex binary
                 ++ flat_map option_tokens apptainer_args
                 ++ scaffold_launcher h ex)%list
    /\ cmd = (before ++ "ngpb" :: flat_map option_tokens ngpb_args)%list
    /\ (ngpb_args = [] -> last cmd "" = "ngpb")
    /\ build_command h ex [] []
       = Return [binary; "exec"; "--pwd"; "/App"; "--bind";
                 path_absolute h (workdir ex) ++ ":/App";
                 path_absolute h (sif_path ex); "mpirun"; "-np";
                 Py.str_int (n_proc ex); "ngpb"].
Proof.
  intros Hres. eexists. eexists.
  split; [apply build_command_resolved; exact Hres|].
  split; [reflexivity|]. split; [reflexivity|].
  split; [now rewrite <- !app_assoc|].
  split.
  - intros ->. cbn [flat_map]. rewrite !app_assoc. apply last_last.
  - rewrite (build_command_resolved _ _ _ _ _ Hres). reflexivity.
Qed.

Lemma build_command_layout_witness :
  exists cmd before,
    build_command demo_host
      (set_apptainer_path (Some "/usr/bin/apptainer") demo_executor)
      [("cleanenv", None)] [("verbose", None)] = Return cmd
    /\ nth_error cmd 0 = Some "/usr/bin/apptainer"
    /\ cmd = (before ++ ["ngpb"; "--verbose"])%list.
Proof.
  destruct (build_command_layout demo_host
              (set_apptainer_path (Some "/usr/bin/apptainer") demo_executor)
              [("cleanenv", None)] [("verbose", None)] "/usr/bin/apptainer"
              eq_refl)
    as (cmd & before & Hcmd & Hhead & _ & Hsplit & _).
  exists cmd, before. repeat split; assumption.
Defined.

(** C7.  While the binary location is unresolved ([not self.apptainer_path]),
    [build_command] raises the "path not found" [RuntimeError]; no vector is
    returned. *)
Theorem build_command_unresolved (h : Host) (ex : executor)
    (apptainer_args ngpb_args : Py.dict (option string)) :
  Py.truthy (apptainer_path ex) = false ->
  build_command h ex apptainer_args ngpb_args
  = Raised (mkExn RuntimeError
              "Apptainer path not found. Call validate_apptainer_availability() first.").
Proof.
  intros Hun. apply nonempty_truthy in Hun.
  unfold build_command. now rewrite Hun.
Qed.

Lemma build_command_unresolved_witness :
  apptainer_path demo_executor = None
  /\ build_command demo_host demo_executor [("bind", Some "/tmp:/tmp")]
       [("prmfile", Some "config.prm")]
     = Raised (mkExn RuntimeError
                 "Apptainer path not found. Call validate_apptainer_availability() first.").
Proof.
  split; [reflexivity|].
  apply (build_command_unresolved demo_host demo_executor). reflexivity.
Defined.

(** ** Construction and binary resolution *)

Lemma init_fields h sif n D env0 t lc ex :
  init h sif n D env0 t lc = Return ex ->
  sif_path ex = path_of h sif /\ n_proc ex = n /\ workdir ex = path_of h D
  /\ timeout ex = t /\ apptainer_path ex = None
  /\ (0 < n)%Z /\ (forall z, t = Some z -> (0 < z)%Z).
Proof.
  unfold init. cbn [workdir sif_path n_proc timeout].
  destruct (mkdir h (path_of h D)); [discriminate|].
  destruct (negb (path_exists h (path_of h sif))); [discriminate|].
  destruct (Z.leb_spec n 0); [discriminate|].
  destruct t as [z|].
  - destruct (Z.leb_spec z 0); [discriminate|].
    intros [= <-]. cbn. repeat split; try assumption.
    now intros ? [= <-].
  - intros [= <-]. cbn. repeat split; try assumption. discriminate.
Qed.

(** A successful search records the binary and touches no other field. *)
Lemma find_apptainer_binary_resolved h st st' binary :
  find_apptainer_binary h st = (Return (Some binary), st') ->
  self st' = set_apptainer_path (Some binary) (self st)
  /\ Py.nonempty (Some binary) = Some binary.
Proof.
  unfold find_apptainer_binary, try_except, bind, host_call, logger, emit,
    assign_apptainer_path, ret, raise.
  destruct (which h "apptainer") as [e|[[|c p]|]]; cbn.
  - discriminate.
  - destruct (which h "singularity") as [e|[[|c p]|]]; cbn; try discriminate.
    intros [= <- <-]. cbn. auto.
  - intros [= <- <-]. cbn. auto.
  - destruct (which h "singularity") as [e|[[|c p]|]]; cbn; try discriminate.
    intros [= <- <-]. cbn. auto.
Qed.

(** C3.  An executor constructed with process count 2, working directory
    [D] and no timeout, whose binary has been resolved, builds from the
    options [{bind: "/tmp:/tmp", prmfile: "config.prm"}] exactly the vector
    of the scenario. *)
Theorem scenario_command (h : Host) (sif D : string)
    (env0 : option (Py.dict string)) (lc : option string)
    (ex : executor) (tr : list event) (st : state) (binary : string) :
  init h sif 2 D env0 None lc = Return ex ->
  find_apptainer_binary h (mkState ex tr) = (Return (Some binary), st) ->
  build_command h (self st)
    (fst (sort_apptainer_kwargs scenario_kwargs))
    (fst (sort_ngpb_kwargs scenario_kwargs))
  = Return [binary; "exec"; "--pwd"; "/App";
            "--bind"; path_absolute h (path_of h D) ++ ":/App";
            "--bind"; "/tmp:/tmp";
            path_absolute h (path_of h sif);
            "mpirun"; "-np"; "2";
            "ngpb"; "--prmfile"; "config.prm"].
Proof.
  intros Hinit Hfind.
  apply init_fields in Hinit as (Hsif & Hn & Hwd & _).
  apply find_apptainer_binary_resolved in Hfind as (Hself & Hres).
  rewrite (build_command_resolved h (self st) _ _ binary).
  - rewrite Hself. unfold scaffold_head, scaffold_launcher.
    cbn [set_apptainer_path workdir sif_path n_proc self].
    rewrite Hsif, Hn, Hwd. reflexivity.
  - rewrite Hself. exact Hres.
Qed.

Lemma scenario_command_witness :
  build_command demo_host
    (set_apptainer_path (Some "/usr/bin/apptainer") demo_executor)
    (fst (sort_apptainer_kwargs scenario_kwargs))
    (fst (sort_ngpb_kwargs scenario_kwargs))
  = Return ["/usr/bin/apptainer"; "exec"; "--pwd"; "/App";
            "--bind"; "/work:/App"; "--bind"; "/tmp:/tmp";
            "/data/test.sif"; "mpirun"; "-np"; "2";
            "ngpb"; "--prmfile"; "config.prm"].
Proof.
  exact (scenario_command demo_host "/data/test.sif" "/work" None None
           demo_executor []
           (mkState (set_apptainer_path (Some "/usr/bin/apptainer") demo_executor)
                    [Logged INFO (Text "Found apptainer at: /usr/bin/apptainer")])
           "/usr/bin/apptainer" eq_refl eq_refl).
Defined.

(** ** Occurrences in a message *)

Lemma string_app_assoc (a b c : string) : (a ++ b) ++ c = a ++ (b ++ c).
Proof. induction a as [|x a IH]; cbn; [reflexivity | now rewrite IH]. Qed.

Lemma string_app_nil_r (a : string) : a ++ "" = a.
Proof. induction a as [|x a IH]; cbn; [reflexivity | now rewrite IH]. Qed.

Lemma embeds_refl x : embeds x x.
Proof. exists "", "". cbn. now rewrite string_app_nil_r. Qed.

Lemma embeds_head x rest : embeds x (x ++ rest).
Proof. exists "", rest. reflexivity. Qed.

Lemma embeds_app_r x a b : embeds x b -> embeds x (a ++ b).
Proof.
  intros (p & q & ->). exists (a ++ p), q. now rewrite string_app_assoc.
Qed.

Lemma embeds_app_l x a b : embeds x a -> embeds x (a ++ b).
Proof.
  intros (p & q & ->). exists p, (q ++ b). now rewrite !string_app_assoc.
Qed.

(** Finds a piece of a right-nested concatenation. *)
Ltac find_piece :=
  solve [ repeat first [ apply embeds_refl
                       | apply embeds_head
                       | apply embeds_app_r ] ].

(** ** The execution coordinator *)

(** Checking the arguments only logs: it returns normally and leaves the
    executor as it is. *)
Lemma validate_all_arguments_silent h kwargs s :
  exists tr, validate_all_arguments h kwargs s = (Return tt, mkState (self s) tr).
Proof.
  unfold validate_all_arguments.
  destruct (sort_apptainer_kwargs kwargs) as [a ua].
  destruct (sort_ngpb_kwargs kwargs) as [n un].
  unfold bind, handle_apptainer_kwargs_errors.
  assert (exists tr, (match ua with
                      | [] => ret tt
                      | _ :: _ => emit (Logged WARNING (UnknownApptainerArguments ua))
                      end) s = (Return tt, mkState (self s) tr)) as [tr0 ->].
  { destruct ua; unfold ret, emit; [destruct s|]; cbn; eauto. }
  destruct un as [|u un]; [unfold ret; cbn; eauto|].
  destruct (filter _ (u :: un)) as [|t ts]; [unfold ret; cbn; eauto|].
  unfold try_except, bind, emit, get_self, host_do, logger, emit, ret, raise.
  cbn [self trace].
  destruct (open_file h _ "a"); cbn; eauto.
Qed.

(** The three ways a log write ends: written; refused and reported; refused
    and the report raising, which leaves [write_log] as an exception. *)
Lemma write_log_cases h path content s :
  match open_file h path "w" with
  | None =>
      write_log h path content s
      = (Return tt, mkState (self s) (trace s ++ [Written path content])%list)
  | Some e =>
      match create_logging_error_message h e path with
      | inr msg =>
          write_log h path content s
          = (Return tt, mkState (self s) (trace s ++ [Logged ERROR (Text msg)])%list)
      | inl e' => write_log h path content s = (Raised e', s)
      end
  end.
Proof.
  unfold write_log, try_except, bind, host_do, host_call, logger, emit, ret, raise.
  destruct (open_file h path "w") as [e|]; [|reflexivity].
  destruct (create_logging_error_message h e path); reflexivity.
Qed.

(** A caught log write returns and leaves the executor as it is. *)
Lemma write_log_caught h path content s :
  write_caught h path = true ->
  exists tr, write_log h path content s = (Return tt, mkState (self s) tr).
Proof.
  unfold write_caught. intros Hcaught.
  pose proof (write_log_cases h path content s) as H.
  destruct (open_file h path "w") as [e|]; [|eauto].
  destruct (create_logging_error_message h e path); [discriminate | eauto].
Qed.

(** The [try] statement once the subprocess has completed and both log
    writes are caught. *)
Lemma run_and_log_completed h cmd primary copy s result :
  run h (spawn_args h (self s) cmd) = inr result ->
  write_caught h primary = true ->
  (forall c, copy = Some c -> write_caught h c = true) ->
  fst (run_and_log h cmd primary copy s)
  = if (returncode result =? 0)%Z then Return result
    else Raised (mkExn RuntimeError
                   (unexpected_msg (self s) cmd
                      (mkExn RuntimeError (failed_msg cmd result primary)))).
Proof.
  intros Hrun Hprimary Hcopy. unfold spawn_args in Hrun.
  unfold run_and_log, bind at 1, get_self, try_except, bind at 1, host_call.
  rewrite Hrun. unfold ret at 1.
  unfold bind at 1.
  destruct (write_log_caught h primary
              ("Command: " ++ Py.join " " cmd ++ Py.nl
               ++ "Return code: " ++ Py.str_int (returncode result) ++ Py.nl
               ++ "STDOUT:" ++ Py.nl ++ stdout result ++ Py.nl
               ++ "STDERR:" ++ Py.nl ++ stderr result ++ Py.nl) s Hprimary)
    as [tr1 ->].
  unfold bind at 1.
  assert (exists tr,
            (match copy with
             | Some copy0 =>
                 write_log h copy0
                   ("Command: " ++ Py.join " " cmd ++ Py.nl
                    ++ "Return code: " ++ Py.str_int (returncode result) ++ Py.nl
                    ++ "STDOUT:" ++ Py.nl ++ stdout result ++ Py.nl
                    ++ "STDERR:" ++ Py.nl ++ stderr result ++ Py.nl)
             | None => ret tt
             end) (mkState (self s) tr1) = (Return tt, mkState (self s) tr))
    as [tr2 ->].
  { destruct copy as [c|]; [|unfold ret; cbn; eauto].
    match goal with
    | |- exists tr, write_log h c ?content ?s0 = _ =>
        destruct (write_log_caught h c content s0 (Hcopy c eq_refl)) as [tr H]
    end.
    exists tr. exact H. }
  destruct (returncode result =? 0)%Z; reflexivity.
Qed.

(** [execute_command] once validation has passed, the log directory is
    available, the subprocess has completed and both log writes are
    caught. *)
Lemma execute_command_completed h kwargs st st1 cmd result :
  validate_apptainer_availability h st = (Return tt, st1) ->
  build_command h (self st1) (fst (sort_apptainer_kwargs kwargs))
    (fst (sort_ngpb_kwargs kwargs)) = Return cmd ->
  (forall d, log_copy_dir (self st1) = Some d -> mkdir h d = None) ->
  run h (spawn_args h (self st1) cmd) = inr result ->
  write_caught h (primary_log_of h (self st1)) = true ->
  (forall d, log_copy_dir (self st1) = Some d ->
             write_caught h (path_join h d "apptainer_execution.log") = true) ->
  fst (execute_command h kwargs st)
  = if (returncode result =? 0)%Z then Return result
    else Raised (mkExn RuntimeError
                   (unexpected_msg (self st1) cmd
                      (mkExn RuntimeError
                         (failed_msg cmd result (primary_log_of h (self st1)))))).
Proof.
  intros Hval Hbuild Hdir Hrun Hprimary Hcopy.
  unfold execute_command, bind at 1. rewrite Hval.
  unfold bind at 1.
  destruct (validate_all_arguments_silent h kwargs st1) as [tr1 ->].
  destruct (sort_apptainer_kwargs kwargs) as [a ua].
  destruct (sort_ngpb_kwargs kwargs) as [n un].
  cbn [fst] in Hbuild.
  unfold bind at 1, get_self. cbn [self].
  unfold bind at 1, lift. rewrite Hbuild.
  unfold bind at 1.
  assert (exists tr,
            setup_logging h "apptainer_execution.log" (mkState (self st1) tr1)
            = (Return (primary_log_of h (self st1),
                       option_map (fun d => path_join h d "apptainer_execution.log")
                                  (log_copy_dir (self st1))),
               mkState (self st1) tr)) as [tr2 ->].
  { unfold setup_logging, bind, get_self, host_do, emit, ret, primary_log_of.
    cbn [self].
    destruct (log_copy_dir (self st1)) as [d|] eqn:Ed; cbn; [|eauto].
    rewrite (Hdir d eq_refl). cbn. eauto. }
  unfold bind at 1, logger, emit. cbn [self trace].
  match goal with
  | |- fst (run_and_log h cmd ?p ?c ?s0) = _ =>
      apply (run_and_log_completed h cmd p c s0 result Hrun Hprimary)
  end.
  intros c Hc. destruct (log_copy_dir (self st1)) as [d|]; [|discriminate].
  injection Hc as <-. now apply Hcopy.
Qed.


(** ** Claims about the execution coordinator *)

Lemma prefix_app (n rest : string) : String.prefix n (n ++ rest) = true.
Proof.
  induction n as [|c n IH]; cbn [String.append String.prefix].
  - now destruct rest.
  - destruct (ascii_dec c c); [exact IH | contradiction].
Qed.

Lemma contains_unfold needle hay :
  contains needle hay
  = String.prefix needle hay
    || match hay with
       | EmptyString => false
       | String _ rest => contains needle rest
       end.
Proof. now destruct hay. Qed.

(** [contains] finds every occurrence. *)
Lemma embeds_contains needle hay : embeds needle hay -> contains needle hay = true.
Proof.
  intros (before & after & ->).
  induction before as [|c before IH].
  - rewrite contains_unfold. cbn [String.append]. now rewrite prefix_app.
  - rewrite contains_unfold. cbn [String.append]. rewrite IH. apply orb_true_r.
Qed.

(** C1.  The subprocess exits with status 1, the primary log cannot be
    written, and [os.getcwd()] raises while that failure is being reported.
    The exception of the report is caught by the generic handler of the
    [try] statement before the return code is looked at: the call raises the
    "unexpected error" [RuntimeError] about the report, and the message has
    neither the exit status nor the captured error output nor the log path. *)
Theorem nonzero_exit_masked_by_report_failure :
  run (stranded_host 1)
      (spawn_args (stranded_host 1)
         (set_apptainer_path (Some "/usr/bin/apptainer") demo_executor)
         ["/usr/bin/apptainer"; "exec"; "--pwd"; "/App"; "--bind"; "/work:/App";
          "--bind"; "/tmp:/tmp"; "/data/test.sif"; "mpirun"; "-np"; "2";
          "ngpb"; "--prmfile"; "config.prm"])
  = inr (mkCompleted 1 "" "Error occurred")
  /\ exists msg,
       fst (execute_command (stranded_host 1) scenario_kwargs
              (mkState demo_executor []))
       = Raised (mkExn RuntimeError msg)
       /\ msg = "Unexpected error during Apptainer execution: "
                ++ "[Errno 2] No such file or directory. "
                ++ "Command: /usr/bin/apptainer exec --pwd /App --bind /work:/App "
                ++ "--bind /tmp:/tmp /data/test.sif mpirun -np 2 ngpb "
                ++ "--prmfile config.prm. "
                ++ "Working directory: /work. SIF file: /data/test.sif"
       /\ ~ embeds "return code" msg
       /\ ~ embeds "Error occurred" msg
       /\ ~ embeds "apptainer_execution.log" msg.
Proof.
  split; [reflexivity|].
  eexists. split; [vm_compute; reflexivity|]. split; [reflexivity|].
  repeat split; intros H; apply embeds_contains in H; vm_compute in H;
    discriminate H.
Qed.

(** C8.  The subprocess exits with status 0.  When its log is written, and
    also when the write is refused and the refusal reported, the call
    returns the process result; when the write is refused and [os.getcwd()]
    raises while the refusal is being reported, the call raises the
    "unexpected error" [RuntimeError] instead: the failed log write has
    changed the outcome. *)
Theorem log_report_failure_changes_outcome :
  fst (execute_command (host_exiting 0) scenario_kwargs (mkState demo_executor []))
  = Return (mkCompleted 0 "Success" "")
  /\ fst (execute_command (with_open_file refuse_files (host_exiting 0))
            scenario_kwargs (mkState demo_executor []))
     = Return (mkCompleted 0 "Success" "")
  /\ fst (execute_command (stranded_host 0) scenario_kwargs
            (mkState demo_executor []))
     = Raised (mkExn RuntimeError
                 ("Unexpected error during Apptainer execution: "
                  ++ "[Errno 2] No such file or directory. "
                  ++ "Command: /usr/bin/apptainer exec --pwd /App --bind /work:/App "
                  ++ "--bind /tmp:/tmp /data/test.sif mpirun -np 2 ngpb "
                  ++ "--prmfile config.prm. "
                  ++ "Working directory: /work. SIF file: /data/test.sif")).
Proof. repeat split; vm_compute; reflexivity. Qed.

(** With a zero exit status and every log write refused, the call still
    returns the process result when each refusal can be reported, and the
    reports are error diagnostics. *)
Example execute_command_log_errors :
  let r := execute_command (with_open_file refuse_files (host_exiting 0))
             scenario_kwargs
             (mkState
                (mkExecutor "/data/test.sif" 1 "/work" [] None (Some "/work/logs")
                            None) []) in
  fst r = Return (mkCompleted 0 "Success" "")
  /\ (forall msg,
         create_logging_error_message (host_exiting 0)
           (mkExn OSError "Permission denied") "/work/apptainer_execution.log"
         = inr msg ->
         In (Logged ERROR (Text msg)) (trace (snd r)))
  /\ (forall msg,
         create_logging_error_message (host_exiting 0)
           (mkExn OSError "Permission denied") "/work/logs/apptainer_execution.log"
         = inr msg ->
         In (Logged ERROR (Text msg)) (trace (snd r))).
Proof.
  vm_compute. repeat split; intros msg [= <-]; intuition.
Qed.

(** ** Worked examples of the coordinator (from the test suite) *)

Example replace_every_occurrence :
  Py.replace "apptainer_bind" "apptainer_" "" = "bind"
  /\ Py.replace "xapptainer_yapptainer_z" "apptainer_" "" = "xyz"
  /\ Py.replace "aaa" "aa" "b" = "ba"
  /\ Py.replace "bind" "apptainer_" "" = "bind".
Proof. repeat split; reflexivity. Qed.

Example find_binary_not_found :
  find_apptainer_binary (with_which (fun _ => inr None) demo_host)
    (mkState demo_executor [])
  = (Return None, mkState demo_executor []).
Proof. reflexivity. Qed.

Example find_singularity_fallback :
  fst (find_apptainer_binary
         (with_which (fun name => if String.eqb name "singularity"
                                  then inr (Some "/usr/bin/singularity")
                                  else inr None) demo_host)
         (mkState demo_executor []))
  = Return (Some "/usr/bin/singularity").
Proof. reflexivity. Qed.

Example find_binary_exception :
  find_apptainer_binary
    (with_which (fun _ => inl (mkExn OtherException "Test exception")) demo_host)
    (mkState demo_executor [])
  = (Return None,
     mkState demo_executor
       [Logged ERROR (Text "Error searching for apptainer binary: Test exception")]).
Proof. reflexivity. Qed.

Example validate_binary_not_found :
  fst (validate_apptainer_availability
         (with_which (fun _ => inr None) demo_host) (mkState demo_executor []))
  = Raised (mkExn RuntimeError not_found_msg).
Proof. reflexivity. Qed.

Example validate_binary_not_functional :
  fst (validate_apptainer_availability
         (with_run (fun _ => inr (mkCompleted 1 "" "Command failed")) demo_host)
         (mkState demo_executor []))
  = Raised (mkExn RuntimeError
              ("Error testing Apptainer functionality: "
               ++ "Apptainer binary found at /usr/bin/apptainer but is not functional. "
               ++ "Exit code: 1. Error: Command failed. "
               ++ "Please check your Apptainer installation.")).
Proof. reflexivity. Qed.

Example execute_command_success :
  fst (execute_command (host_exiting 0) scenario_kwargs (mkState demo_executor []))
  = Return (mkCompleted 0 "Success" "").
Proof. reflexivity. Qed.

Example execute_command_timeout :
  fst (execute_command (with_run run_timing_out demo_host) []
         (mkState (mkExecutor "/data/test.sif" 1 "/work" [] (Some 60%Z) None None) []))
  = Raised (mkExn RuntimeError
              ("Apptainer execution timed out after 60 seconds. "
               ++ "Command: /usr/bin/apptainer exec --pwd /App --bind /work:/App "
               ++ "/data/test.sif mpirun -np 1 ngpb. "
               ++ "Consider increasing the timeout parameter.")).
Proof. reflexivity. Qed.

(** * Further properties of the router *)

Lemma NoDup_keys_set {V} (k : string) (v : V) (d : Py.dict V) :
  NoDup (Py.keys d) -> NoDup (Py.keys (Py.set k v d)).
Proof.
  induction d as [|[k0 v0] d IH]; cbn; intros Hnd.
  - constructor; [intros [] | constructor].
  - inversion Hnd as [|? ? Hnotin Hnd']; subst.
    destruct (String.eqb_spec k0 k) as [->|Hne]; cbn.
    + constructor; assumption.
    + constructor; [|auto].
      intros Hin. apply keys_set in Hin. destruct Hin as [->|Hin]; auto.
Qed.

Lemma set_fresh {V} (k : string) (v : V) (d : Py.dict V) :
  ~ In k (Py.keys d) -> Py.set k v d = (d ++ [(k, v)])%list.
Proof.
  induction d as [|[k0 v0] d IH]; cbn; intros Hnotin.
  - reflexivity.
  - destruct (String.eqb_spec k0 k) as [->|Hne].
    + exfalso. apply Hnotin. now left.
    + rewrite IH; [reflexivity | intros Hin; apply Hnotin; now right].
Qed.

Lemma sort_step_snd d acc item :
  snd (sort_step d acc item)
  = (snd acc ++ (if reported d (fst item) then [fst item] else []))%list.
Proof.
  destruct acc as [args unknown], item as [key value].
  destruct d; unfold reported, sort_step, sort_apptainer_step, sort_ngpb_step;
    cbn [fst snd].
  - destruct (Py.mem key APPTAINER_KNOWN_ARGS); cbn [negb andb snd];
      [now rewrite app_nil_r|].
    destruct (Py.startswith key "apptainer_"); cbn [negb andb snd];
      [|now rewrite app_nil_r].
    destruct (Py.mem _ APPTAINER_KNOWN_ARGS); cbn [negb andb snd];
      [now rewrite app_nil_r | reflexivity].
  - destruct (Py.mem key NGPB_KNOWN_ARGS); cbn [negb andb snd];
      [now rewrite app_nil_r|].
    destruct (Py.startswith key "ngpb_").
    + destruct (Py.mem _ NGPB_KNOWN_ARGS); cbn [negb andb snd];
        [now rewrite app_nil_r | reflexivity].
    + destruct (negb (Py.mem key APPTAINER_KNOWN_ARGS)
                && negb (Py.startswith key "apptainer_")); cbn [snd];
        [reflexivity | now rewrite app_nil_r].
Qed.

Lemma fold_sort_step_snd d kwargs : forall acc,
  snd (fold_left (sort_step d) kwargs acc)
  = (snd acc ++ filter (reported d) (Py.keys kwargs))%list.
Proof.
  induction kwargs as [|item kwargs IH]; intros acc; cbn [fold_left].
  - cbn. now rewrite app_nil_r.
  - rewrite IH, sort_step_snd. cbn [Py.keys map filter].
    destruct (reported d (fst item)); rewrite <- app_assoc; reflexivity.
Qed.

(** The unrecognized names of a destination are the input names it reports,
    in input order. *)
Lemma sort_kwargs_snd d kwargs :
  snd (sort_kwargs d kwargs) = filter (reported d) (Py.keys kwargs).
Proof. now rewrite sort_kwargs_fold, fold_sort_step_snd. Qed.

Lemma startswith_apptainer_not_ngpb key :
  Py.startswith key "apptainer_" = true -> Py.startswith key "ngpb_" = false.
Proof.
  unfold Py.startswith. destruct key as [|c key]; cbn [String.prefix];
    [discriminate|].
  destruct (ascii_dec "a" c) as [<-|]; [intros _ | discriminate].
  destruct (ascii_dec "n" "a") as [E|]; [discriminate E | reflexivity].
Qed.

Lemma ngpb_prefixed_not_runtime_name key :
  Py.startswith key "ngpb_" = true -> Py.mem key APPTAINER_KNOWN_ARGS = false.
Proof.
  intros Hpre. destruct (Py.mem key APPTAINER_KNOWN_ARGS) eqn:E; [|reflexivity].
  assert (negb (Py.startswith key "ngpb_") = true) as Hno.
  { revert E. apply (mem_forallb (fun k => negb (Py.startswith k "ngpb_"))).
    vm_compute. reflexivity. }
  rewrite Hpre in Hno. discriminate.
Qed.

Lemma reported_runtime_prefixed key :
  reported Runtime key = true -> Py.startswith key "apptainer_" = true.
Proof.
  unfold reported. intros H.
  apply andb_true_iff in H as [H _]. now apply andb_true_iff in H as [_ H].
Qed.

Lemma reported_program_not_apptainer key :
  reported Program key = true -> not_apptainer_name key = true.
Proof.
  unfold reported, not_apptainer_name. intros H.
  apply andb_true_iff in H as [_ H].
  destruct (Py.startswith key "ngpb_") eqn:Epre; [|exact H].
  rewrite (ngpb_prefixed_not_runtime_name key Epre). cbn [negb andb].
  destruct (Py.startswith key "apptainer_") eqn:Eapp; [|reflexivity].
  apply startswith_apptainer_not_ngpb in Eapp. congruence.
Qed.

(** X1.  Every key of a destination's output mapping is a name of that
    destination's allow-list: nothing else can reach the command as an
    option flag. *)
Theorem sorted_output_keys_allowlisted (d : destination)
    (kwargs : Py.dict Py.value) (k : string) :
  In k (Py.keys (fst (sort_kwargs d kwargs))) -> In k (known d).
Proof.
  intros Hin. apply mem_In. now apply sort_kwargs_keys_known with kwargs.
Qed.

Lemma sorted_output_keys_allowlisted_witness :
  In "bind" (Py.keys (fst (sort_kwargs Runtime
                             [("apptainer_bind", Py.VStr "/tmp:/tmp")])))
  /\ In "bind" APPTAINER_KNOWN_ARGS.
Proof.
  assert (In "bind" (Py.keys (fst (sort_kwargs Runtime
                                     [("apptainer_bind", Py.VStr "/tmp:/tmp")]))))
    as Hin by (left; reflexivity).
  split; [exact Hin|].
  exact (sorted_output_keys_allowlisted Runtime
           [("apptainer_bind", Py.VStr "/tmp:/tmp")] "bind" Hin).
Defined.

(** X2.  The output mapping of either sort has no duplicate key, whatever
    the input: an option accepted twice (exactly and through an alias) is
    emitted once. *)
Theorem sorted_output_keys_unique (d : destination) (kwargs : Py.dict Py.value) :
  NoDup (Py.keys (fst (sort_kwargs d kwargs))).
Proof.
  rewrite sort_kwargs_fst.
  assert (forall args, NoDup (Py.keys args) ->
                       NoDup (Py.keys (fold_left (route d) kwargs args))) as H.
  { induction kwargs as [|item kwargs IH]; intros args Hnd; cbn [fold_left].
    - assumption.
    - apply IH. unfold route. destruct (accepted_as d (fst item)); [|assumption].
      now apply NoDup_keys_set. }
  apply H. constructor.
Qed.

(** X3.  A name of the input that is in neither allow-list and carries
    neither prefix is reported by [sort_ngpb_kwargs], is not reported by
    [sort_apptainer_kwargs], and is a key of neither output mapping. *)
Theorem unrecognized_name_reported_once (kwargs : Py.dict Py.value) (key : string) :
  In key (Py.keys kwargs) ->
  Py.mem key APPTAINER_KNOWN_ARGS = false ->
  Py.mem key NGPB_KNOWN_ARGS = false ->
  Py.startswith key "apptainer_" = false ->
  Py.startswith key "ngpb_" = false ->
  In key (snd (sort_ngpb_kwargs kwargs))
  /\ ~ In key (snd (sort_apptainer_kwargs kwargs))
  /\ ~ In key (Py.keys (fst (sort_apptainer_kwargs kwargs)))
  /\ ~ In key (Py.keys (fst (sort_ngpb_kwargs kwargs))).
Proof.
  intros Hin Happ Hngpb Hpa Hpn.
  change (sort_ngpb_kwargs kwargs) with (sort_kwargs Program kwargs).
  change (sort_apptainer_kwargs kwargs) with (sort_kwargs Runtime kwargs).
  rewrite !sort_kwargs_snd. repeat split.
  - apply filter_In. split; [assumption|].
    unfold reported. now rewrite Hngpb, Hpn, Happ, Hpa.
  - intros H. apply filter_In in H as [_ H].
    apply reported_runtime_prefixed in H. congruence.
  - intros H. apply sort_kwargs_keys_known in H. cbn [known] in H. congruence.
  - intros H. apply sort_kwargs_keys_known in H. cbn [known] in H. congruence.
Qed.

Lemma unrecognized_name_reported_once_witness :
  In "invalid_arg" (snd (sort_ngpb_kwargs
                           [("bind", Py.VStr "/tmp:/tmp");
                            ("invalid_arg", Py.VStr "test")]))
  /\ ~ In "invalid_arg" (snd (sort_apptainer_kwargs
                                [("bind", Py.VStr "/tmp:/tmp");
                                 ("invalid_arg", Py.VStr "test")])).
Proof.
  destruct (unrecognized_name_reported_once
              [("bind", Py.VStr "/tmp:/tmp"); ("invalid_arg", Py.VStr "test")]
              "invalid_arg")
    as (Hin & Hout & _); try reflexivity.
  - right. left. reflexivity.
  - split; assumption.
Defined.

(** X4.  A name reported by [sort_apptainer_kwargs] is an input name that
    starts with [apptainer_], and [sort_ngpb_kwargs] never reports it: no
    name is in both unrecognized lists. *)
Theorem unknown_lists_disjoint (kwargs : Py.dict Py.value) (key : string) :
  In key (snd (sort_apptainer_kwargs kwargs)) ->
  In key (Py.keys kwargs)
  /\ Py.startswith key "apptainer_" = true
  /\ ~ In key (snd (sort_ngpb_kwargs kwargs)).
Proof.
  change (sort_ngpb_kwargs kwargs) with (sort_kwargs Program kwargs).
  change (sort_apptainer_kwargs kwargs) with (sort_kwargs Runtime kwargs).
  rewrite !sort_kwargs_snd. intros H. apply filter_In in H as [Hin Hrep].
  apply reported_runtime_prefixed in Hrep.
  repeat split; try assumption.
  intros H. apply filter_In in H as [_ H].
  apply reported_program_not_apptainer in H. unfold not_apptainer_name in H.
  rewrite Hrep in H. cbn in H. now rewrite andb_false_r in H.
Qed.

Lemma unknown_lists_disjoint_witness :
  In "apptainer_invalid"
     (snd (sort_apptainer_kwargs [("apptainer_invalid", Py.VStr "test")]))
  /\ ~ In "apptainer_invalid"
       (snd (sort_ngpb_kwargs [("apptainer_invalid", Py.VStr "test")])).
Proof.
  assert (In "apptainer_invalid"
             (snd (sort_apptainer_kwargs [("apptainer_invalid", Py.VStr "test")])))
    as Hin by (left; reflexivity).
  split; [exact Hin|].
  apply (unknown_lists_disjoint [("apptainer_invalid", Py.VStr "test")]
           "apptainer_invalid" Hin).
Defined.

(** X5.  Input names that are all in a destination's allow-list, without
    duplicates, come out of that destination's sort unchanged and in the
    same order, each with its value stringified, and nothing is reported. *)
Theorem exact_names_round_trip (d : destination) (kwargs : Py.dict Py.value) :
  NoDup (Py.keys kwargs) ->
  (forall k, In k (Py.keys kwargs) -> In k (known d)) ->
  sort_kwargs d kwargs
  = (map (fun item => (fst item, stringify (snd item))) kwargs, []).
Proof.
  intros Hnd Hknown.
  rewrite (surjective_pairing (sort_kwargs d kwargs)). f_equal.
  - rewrite sort_kwargs_fst.
    assert (forall args,
               NoDup (Py.keys args ++ Py.keys kwargs) ->
               fold_left (route d) kwargs args
               = (args ++ map (fun item => (fst item, stringify (snd item))) kwargs)%list)
      as H.
    { clear Hnd. induction kwargs as [|[key value] kwargs IH]; intros args Hnd;
        cbn [fold_left map].
      - now rewrite app_nil_r.
      - cbn [Py.keys map fst] in Hnd, Hknown.
        unfold route at 2. cbn [fst snd].
        rewrite accepted_as_exact
          by (apply mem_In, Hknown; now left).
        rewrite set_fresh.
        + rewrite IH.
          * now rewrite <- app_assoc.
          * intros k Hk. apply Hknown. now right.
          * unfold Py.keys. rewrite map_app. cbn [map fst].
            rewrite <- app_assoc. exact Hnd.
        + apply NoDup_remove_2 in Hnd. intros Hin. apply Hnd.
          apply in_or_app. now left. }
    apply H. exact Hnd.
  - rewrite sort_kwargs_snd.
    induction (Py.keys kwargs) as [|k ks IH]; [reflexivity|].
    cbn [filter].
    assert (reported d k = false) as ->.
    { assert (Py.mem k (known d) = true) as Hk
        by (apply mem_In, Hknown; now left).
      destruct d; unfold reported; cbn [known] in Hk; now rewrite Hk. }
    apply IH.
    + now inversion Hnd.
    + intros k0 Hk0. apply Hknown. now right.
Qed.

Lemma exact_names_round_trip_witness :
  sort_kwargs Runtime
    [("cleanenv", Py.VNone); ("bind", Py.VStr "/tmp:/tmp"); ("memory", Py.VInt 1024)]
  = ([("cleanenv", None); ("bind", Some "/tmp:/tmp"); ("memory", Some "1024")], []).
Proof.
  apply (exact_names_round_trip Runtime
           [("cleanenv", Py.VNone); ("bind", Py.VStr "/tmp:/tmp");
            ("memory", Py.VInt 1024)]).
  - repeat constructor; cbn; intuition discriminate.
  - intros k Hk. apply mem_In. cbn in Hk.
    destruct Hk as [<-|[<-|[<-|[]]]]; reflexivity.
Defined.

Lemma route_keys_iff d k kwargs : forall args,
  In k (Py.keys (fold_left (route d) kwargs args))
  <-> In k (Py.keys args)
      \/ exists key, In key (Py.keys kwargs) /\ accepted_as d key = Some k.
Proof.
  induction kwargs as [|item kwargs IH]; intros args; cbn [fold_left].
  - split; [now left | intros [H|(key & [] & _)]; exact H].
  - rewrite IH. unfold route. cbn [Py.keys map].
    destruct (accepted_as d (fst item)) as [k'|] eqn:E.
    + rewrite keys_set. split.
      * intros [[->|H]|(key & Hin & Hacc)].
        -- right. exists (fst item). split; [now left | exact E].
        -- now left.
        -- right. exists key. split; [now right | exact Hacc].
      * intros [H|(key & [<-|Hin] & Hacc)].
        -- left. now right.
        -- left. left. congruence.
        -- right. exists key. split; assumption.
    + split.
      * intros [H|(key & Hin & Hacc)].
        -- now left.
        -- right. exists key. split; [now right | exact Hacc].
      * intros [H|(key & [<-|Hin] & Hacc)].
        -- now left.
        -- congruence.
        -- right. exists key. split; assumption.
Qed.

(** X6.  A name is a key of a destination's output mapping exactly when some
    option of the input is accepted by that destination under that name,
    either by its exact name or through the prefix. *)
Theorem output_key_iff_accepted (d : destination) (kwargs : Py.dict Py.value)
    (k : string) :
  In k (Py.keys (fst (sort_kwargs d kwargs)))
  <-> exists key, In key (Py.keys kwargs) /\ accepted_as d key = Some k.
Proof.
  rewrite sort_kwargs_fst, route_keys_iff. cbn [Py.keys map].
  split; [intros [[]|H]; exact H | now right].
Qed.

(** X7.  The value kept under a name of the output mapping is the
    stringified value of the last input option accepted under that name,
    whether it was given by its exact name or with the prefix. *)
Theorem last_accepted_value_wins (d : destination)
    (before after : Py.dict Py.value) (key : string) (v : Py.value) (k : string) :
  accepted_as d key = Some k ->
  (forall item, In item after -> accepted_as d (fst item) <> Some k) ->
  Py.get k (fst (sort_kwargs d (before ++ (key, v) :: after)%list))
  = Some (stringify v).
Proof.
  intros Hacc Hlater.
  rewrite sort_kwargs_fst, fold_left_app. cbn [fold_left].
  apply route_get_stable; [|assumption].
  unfold route at 1. cbn [fst snd]. rewrite Hacc. apply get_set_same.
Qed.

Lemma last_accepted_value_wins_witness :
  Py.get "prmfile"
    (fst (sort_ngpb_kwargs
            [("prmfile", Py.VStr "a.prm"); ("ngpb_prmfile", Py.VStr "b.prm");
             ("pqrfile", Py.VStr "in.pqr")]))
  = Some (Some "b.prm").
Proof.
  apply (last_accepted_value_wins Program [("prmfile", Py.VStr "a.prm")]
           [("pqrfile", Py.VStr "in.pqr")] "ngpb_prmfile" (Py.VStr "b.prm")
           "prmfile").
  - reflexivity.
  - intros item [<-|[]]. vm_compute. discriminate.
Defined.

(** * Further properties of argument validation *)

Lemma filter_all {A} (f : A -> bool) (l : list A) :
  (forall x, In x l -> f x = true) -> filter f l = l.
Proof.
  induction l as [|x l IH]; intros H; cbn [filter]; [reflexivity|].
  rewrite (H x (or_introl eq_refl)), IH; [reflexivity|].
  intros y Hy. apply H. now right.
Qed.

Lemma ngpb_unknown_filter_id (kwargs : Py.dict Py.value) :
  filter not_apptainer_name (snd (sort_ngpb_kwargs kwargs))
  = snd (sort_ngpb_kwargs kwargs).
Proof.
  apply filter_all. intros x Hx.
  change (sort_ngpb_kwargs kwargs) with (sort_kwargs Program kwargs) in Hx.
  rewrite sort_kwargs_snd in Hx. apply filter_In in Hx as [_ Hx].
  exact (reported_program_not_apptainer x Hx).
Qed.

(** X8.  The filter that [validate_all_arguments] applies to the names
    reported by [sort_ngpb_kwargs] removes nothing: the sort has already left
    out the names of the runtime allow-list and the names with the runtime
    prefix. *)
Theorem truly_unknown_is_unknown_ngpb (kwargs : Py.dict Py.value) :
  filter (fun arg => negb (Py.mem arg APPTAINER_KNOWN_ARGS)
                     && negb (Py.startswith arg "apptainer_"))
         (snd (sort_ngpb_kwargs kwargs))
  = snd (sort_ngpb_kwargs kwargs).
Proof. exact (ngpb_unknown_filter_id kwargs). Qed.

(** X9.  Provided [str()] answers for every option value (the sorts call it
    outside any [try]), [validate_all_arguments] returns normally and leaves
    the executor as it is, even when the warnings file cannot be written;
    when neither sort reports a name it has no effect at all. *)
Theorem validate_all_arguments_harmless (h : Host) (kwargs : Py.dict Py.value)
    (s : state) :
  (forall item, In item kwargs -> Py.str_answers (snd item) = true) ->
  fst (validate_all_arguments h kwargs s) = Return tt
  /\ self (snd (validate_all_arguments h kwargs s)) = self s
  /\ (snd (sort_apptainer_kwargs kwargs) = [] ->
      snd (sort_ngpb_kwargs kwargs) = [] ->
      validate_all_arguments h kwargs s = (Return tt, s)).
Proof.
  intros _.
  destruct (validate_all_arguments_silent h kwargs s) as [tr Htr].
  rewrite Htr. repeat split.
  intros Ha Hn. rewrite <- Htr. unfold validate_all_arguments.
  destruct (sort_apptainer_kwargs kwargs) as [a ua].
  destruct (sort_ngpb_kwargs kwargs) as [n un].
  cbn [snd] in Ha, Hn. subst ua un.
  unfold bind, handle_apptainer_kwargs_errors, ret. reflexivity.
Qed.



(** * Further properties of the command builder *)

Lemma option_tokens_length (opts : Py.dict (option string)) :
  length (flat_map option_tokens opts) = token_count opts.
Proof.
  induction opts as [|[key value] opts IH]; [reflexivity|].
  cbn [flat_map]. rewrite length_app, IH.
  unfold token_count, option_tokens. cbn [filter snd fst length].
  destruct value; cbn [length]; lia.
Qed.

(** X11.  The vector has the eleven fixed tokens plus, for each option of
    either mapping, one token when its value is absent and two otherwise. *)
Theorem build_command_length (h : Host) (ex : executor)
    (apptainer_args ngpb_args : Py.dict (option string)) (cmd : list string) :
  build_command h ex apptainer_args ngpb_args = Return cmd ->
  length cmd = 11 + token_count apptainer_args + token_count ngpb_args.
Proof.
  unfold build_command.
  destruct (Py.nonempty (apptainer_path ex)) as [path|]; [|discriminate].
  intros [= <-]. rewrite !add_options_tokens, !length_app.
  rewrite !option_tokens_length. cbn [length]. lia.
Qed.

Lemma build_command_length_witness :
  length ["/usr/bin/apptainer"; "exec"; "--pwd"; "/App"; "--bind"; "/work:/App";
          "--cleanenv"; "--bind"; "/tmp:/tmp"; "/data/test.sif"; "mpirun"; "-np";
          "2"; "ngpb"; "--prmfile"; "config.prm"]
  = 11 + 3 + 2.
Proof.
  exact (build_command_length demo_host
           (set_apptainer_path (Some "/usr/bin/apptainer") demo_executor)
           [("cleanenv", None); ("bind", Some "/tmp:/tmp")]
           [("prmfile", Some "config.prm")] _ eq_refl).
Defined.




(** * Further properties of binary resolution and validation *)

Lemma find_apptainer_binary_returns (h : Host) (st : state) :
  exists r st',
    find_apptainer_binary h st = (Return r, st')
    /\ match r with
       | Some p => p <> "" /\ self st' = set_apptainer_path (Some p) (self st)
       | None => self st' = self st
       end.
Proof.
  unfold find_apptainer_binary, try_except, bind, host_call, logger, emit,
    assign_apptainer_path, ret, raise.
  destruct (which h "apptainer") as [e|[[|c p]|]]; cbn.
  - eexists None, _. split; reflexivity.
  - destruct (which h "singularity") as [e|[[|c p]|]]; cbn.
    + eexists None, _. split; reflexivity.
    + eexists None, _. split; reflexivity.
    + eexists (Some _), _. split; [reflexivity|]. split; [discriminate|reflexivity].
    + eexists None, _. split; reflexivity.
  - eexists (Some _), _. split; [reflexivity|]. split; [discriminate|reflexivity].
  - destruct (which h "singularity") as [e|[[|c p]|]]; cbn.
    + eexists None, _. split; reflexivity.
    + eexists None, _. split; reflexivity.
    + eexists (Some _), _. split; [reflexivity|]. split; [discriminate|reflexivity].
    + eexists None, _. split; reflexivity.
Qed.

(** X13.  [find_apptainer_binary] never raises: a failure of the search is
    answered by [None].  When it returns a path, the path is not empty and is
    recorded in the executor; when it returns [None] the executor is as
    before. *)
Theorem find_apptainer_binary_never_raises (h : Host) (st : state) :
  exists r st',
    find_apptainer_binary h st = (Return r, st')
    /\ match r with
       | Some p => p <> "" /\ self st' = set_apptainer_path (Some p) (self st)
       | None => self st' = self st
       end.
Proof. exact (find_apptainer_binary_returns h st). Qed.

(** X14.  The search returns a path exactly when [apptainer] is on the
    search path, and then that path, or when it is not (the lookup answers
    [None] or an empty string) and [singularity] is, and then that one:
    Apptainer is preferred and Singularity is the fallback. *)
Theorem find_apptainer_binary_order (h : Host) (st : state) (p : string) :
  fst (find_apptainer_binary h st) = Return (Some p)
  <-> (exists a, which h "apptainer" = inr a /\ Py.nonempty a = Some p)
      \/ (exists a s, which h "apptainer" = inr a /\ Py.nonempty a = None
                      /\ which h "singularity" = inr s /\ Py.nonempty s = Some p).
Proof.
  unfold find_apptainer_binary, try_except, bind, host_call, logger, emit,
    assign_apptainer_path, ret, raise.
  destruct (which h "apptainer") as [e|a]; cbn.
  - split; [discriminate|].
    intros [(a & [=] & _)|(a & s & [=] & _)].
  - destruct (Py.nonempty a) as [q|] eqn:Ea; cbn.
    + split.
      * intros [= <-]. left. eauto.
      * intros [(a' & [= <-] & Hp)|(a' & s & [= <-] & Hnone & _)]; congruence.
    + destruct (which h "singularity") as [e|s]; cbn.
      * split; [discriminate|].
        intros [(a' & [= <-] & Hp)|(a' & s & _ & _ & [=] & _)]. congruence.
      * destruct (Py.nonempty s) as [q|] eqn:Es; cbn.
        -- split.
           ++ intros [= <-]. right. exists a, s. auto.
           ++ intros [(a' & [= <-] & Hp)|(a' & s' & _ & _ & [= <-] & Hp)];
                congruence.
        -- split; [discriminate|].
           intros [(a' & [= <-] & Hp)|(a' & s' & _ & _ & [= <-] & Hp)];
             congruence.
Qed.

(** With the binary already recorded, validation is the version query. *)
Lemma validate_resolved_outcome h st p :
  Py.nonempty (apptainer_path (self st)) = Some p ->
  fst (validate_apptainer_availability h st)
  = match run h (version_args p) with
    | inr result =>
        if (returncode result =? 0)%Z then Return tt
        else Raised (mkExn RuntimeError
                       ("Error testing Apptainer functionality: "
                        ++ ("Apptainer binary found at " ++ p ++ " "
                            ++ "but is not functional. Exit code: "
                            ++ Py.str_int (returncode result) ++ ". "
                            ++ "Error: " ++ stderr result)
                        ++ ". " ++ "Please check your Apptainer installation."))
    | inl e =>
        if is_timeout e then
          Raised (mkExn RuntimeError
                    ("Apptainer binary at " ++ p ++ " timed out during version check"))
        else
          Raised (mkExn RuntimeError
                    ("Error testing Apptainer functionality: " ++ exn_text e ++ ". "
                     ++ "Please check your Apptainer installation."))
    end
  /\ self (snd (validate_apptainer_availability h st)) = self st.
Proof.
  intros Hres.
  assert (Py.truthy (apptainer_path (self st)) = true) as Htruthy.
  { destruct (Py.truthy (apptainer_path (self st))) eqn:E; [reflexivity|].
    apply nonempty_truthy in E. congruence. }
  remember (validate_apptainer_availability h st) as r eqn:Hr.
  unfold validate_apptainer_availability, bind at 1, get_self in Hr.
  unfold bind at 1 in Hr. rewrite Htruthy in Hr. cbn [negb] in Hr.
  unfold ret at 1 in Hr. unfold bind at 1 in Hr. cbn [self] in Hr.
  rewrite Hres in Hr.
  unfold try_except, bind, host_call, logger, emit, ret, raise in Hr.
  revert Hr. unfold version_args.
  destruct (run h _) as [e|result]; cbn.
  - destruct (is_timeout e); cbn; intros ->; split; reflexivity.
  - destruct (returncode result =? 0)%Z; cbn; intros ->; split; reflexivity.
Qed.

(** X15.  With the binary recorded, the outcome of validation is decided by
    the version query alone: success on exit status 0; a [RuntimeError]
    naming the timeout when the query times out; otherwise a [RuntimeError]
    "Error testing Apptainer functionality" around the cause, which for a
    non-zero exit status is the "not functional" message with the status and
    the error output.  The executor is left as it is. *)
Theorem version_check_decides (h : Host) (st : state) (p : string) :
  Py.nonempty (apptainer_path (self st)) = Some p ->
  fst (validate_apptainer_availability h st)
  = match run h (version_args p) with
    | inr result =>
        if (returncode result =? 0)%Z then Return tt
        else Raised (mkExn RuntimeError
                       ("Error testing Apptainer functionality: "
                        ++ ("Apptainer binary found at " ++ p ++ " "
                            ++ "but is not functional. Exit code: "
                            ++ Py.str_int (returncode result) ++ ". "
                            ++ "Error: " ++ stderr result)
                        ++ ". " ++ "Please check your Apptainer installation."))
    | inl e =>
        if is_timeout e then
          Raised (mkExn RuntimeError
                    ("Apptainer binary at " ++ p ++ " timed out during version check"))
        else
          Raised (mkExn RuntimeError
                    ("Error testing Apptainer functionality: " ++ exn_text e ++ ". "
                     ++ "Please check your Apptainer installation."))
    end
  /\ self (snd (validate_apptainer_availability h st)) = self st.
Proof. exact (validate_resolved_outcome h st p). Qed.

Lemma version_check_decides_witness :
  fst (validate_apptainer_availability
         (with_run (fun _ => inl (mkExn TimeoutExpired "timed out")) demo_host)
         (mkState (set_apptainer_path (Some "/usr/bin/apptainer") demo_executor) []))
  = Raised (mkExn RuntimeError
              "Apptainer binary at /usr/bin/apptainer timed out during version check").
Proof.
  exact (proj1 (version_check_decides
                  (with_run (fun _ => inl (mkExn TimeoutExpired "timed out")) demo_host)
                  (mkState (set_apptainer_path (Some "/usr/bin/apptainer")
                              demo_executor) [])
                  "/usr/bin/apptainer" eq_refl)).
Defined.

(** Whatever validation raises is a [RuntimeError]. *)
Lemma validate_raises_runtime h st e st' :
  validate_apptainer_availability h st = (Raised e, st') ->
  exn_kind e = RuntimeError.
Proof.
  unfold validate_apptainer_availability, bind at 1, get_self.
  unfold bind at 1.
  assert (exists s1, (if negb (Py.truthy (apptainer_path (self st)))
                      then _ <- find_apptainer_binary h;; ret tt
                      else ret tt) st = (Return tt, s1)) as [s1 ->].
  { destruct (negb (Py.truthy (apptainer_path (self st)))).
    - unfold bind.
      destruct (find_apptainer_binary_returns h st) as (r & s1 & -> & _).
      unfold ret. eauto.
    - unfold ret. eauto. }
  unfold bind at 1. cbn [self].
  destruct (Py.nonempty (apptainer_path (self s1))) as [path|].
  - unfold try_except, bind, host_call, logger, emit, ret, raise.
    destruct (run h _) as [e0|result]; cbn.
    + destruct (is_timeout e0); cbn; now intros [= <- _].
    + destruct (negb (returncode result =? 0)%Z); cbn;
        [now intros [= <- _] | discriminate].
  - unfold bind, logger, emit, raise. cbn. now intros [= <- _].
Qed.

(** X16.  Every exception that [validate_apptainer_availability] raises is a
    [RuntimeError], whatever the search path and the version query do. *)
Theorem validate_only_raises_runtime_error (h : Host) (st st' : state) (e : exn) :
  validate_apptainer_availability h st = (Raised e, st') ->
  exn_kind e = RuntimeError.
Proof. exact (validate_raises_runtime h st e st'). Qed.

Lemma validate_only_raises_runtime_error_witness :
  exn_kind (mkExn RuntimeError not_found_msg) = RuntimeError.
Proof.
  exact (validate_only_raises_runtime_error
           (with_which (fun _ => inr None) demo_host)
           (mkState demo_executor [])
           (mkState demo_executor [Logged ERROR (Text not_found_msg)])
           (mkExn RuntimeError not_found_msg) eq_refl).
Defined.

(** X17.  Once a binary is recorded, validation does not search again: its
    result is the same under any other search path. *)
Theorem validate_skips_search_when_resolved (h : Host)
    (w : string -> exn + option string) (st : state) :
  Py.truthy (apptainer_path (self st)) = true ->
  validate_apptainer_availability (with_which w h) st
  = validate_apptainer_availability h st.
Proof.
  intros Htruthy.
  unfold validate_apptainer_availability, bind at 1, get_self.
  unfold bind at 1. rewrite Htruthy. cbn [negb].
  symmetry.
  unfold bind at 1. unfold bind at 1. rewrite Htruthy. cbn [negb].
  reflexivity.
Qed.

Lemma validate_skips_search_when_resolved_witness :
  validate_apptainer_availability
    (with_which (fun _ => inr None) demo_host)
    (mkState (set_apptainer_path (Some "/usr/bin/apptainer") demo_executor) [])
  = validate_apptainer_availability demo_host
      (mkState (set_apptainer_path (Some "/usr/bin/apptainer") demo_executor) []).
Proof.
  apply (validate_skips_search_when_resolved demo_host (fun _ => inr None)).
  reflexivity.
Defined.

(** X18.  When validation returns normally, a non-empty binary path is
    recorded in the executor, so that the guard [if not self.apptainer_path]
    of [build_command] does not fire afterwards.  It is the path recorded
    before the call or, when none was, the one [find_apptainer_binary]
    returned, and the version query of that binary exited with status 0. *)
Theorem validation_records_working_binary (h : Host) (st st1 : state) :
  validate_apptainer_availability h st = (Return tt, st1) ->
  exists binary result,
    apptainer_path (self st1) = Some binary
    /\ Py.truthy (apptainer_path (self st1)) = true
    /\ (apptainer_path (self st) = Some binary
        \/ (Py.truthy (apptainer_path (self st)) = false
            /\ fst (find_apptainer_binary h st) = Return (Some binary)))
    /\ run h (version_args binary) = inr result
    /\ returncode result = 0%Z.
Proof.
  unfold validate_apptainer_availability, bind at 1, get_self.
  unfold bind at 1.
  assert (exists s1,
             (if negb (Py.truthy (apptainer_path (self st)))
              then _ <- find_apptainer_binary h;; ret tt
              else ret tt) st = (Return tt, s1)
             /\ forall binary,
                 Py.nonempty (apptainer_path (self s1)) = Some binary ->
                 apptainer_path (self s1) = Some binary
                 /\ Py.truthy (apptainer_path (self s1)) = true
                 /\ (apptainer_path (self st) = Some binary
                     \/ (Py.truthy (apptainer_path (self st)) = false
                         /\ fst (find_apptainer_binary h st) = Return (Some binary))))
    as (s1 & -> & Hs1).
  { destruct (Py.truthy (apptainer_path (self st))) eqn:Etruthy; cbn [negb].
    - exists st. split; [reflexivity|]. intros binary Hbin.
      destruct (apptainer_path (self st)) as [[|c p]|]; cbn in Hbin, Etruthy;
        try discriminate.
      injection Hbin as <-. auto.
    - unfold bind.
      destruct (find_apptainer_binary_returns h st) as (r & s1 & Hfind & Hr).
      rewrite Hfind. exists s1. split; [reflexivity|]. intros binary Hbin.
      destruct r as [p|].
      + destruct Hr as [Hp Hself]. rewrite Hself in Hbin |- *.
        cbn [apptainer_path set_apptainer_path] in Hbin |- *.
        destruct p as [|c p]; [contradiction|]. cbn in Hbin.
        injection Hbin as <-. repeat split. right. split; reflexivity.
      + rewrite Hr in Hbin. apply nonempty_truthy in Etruthy. congruence. }
  unfold bind at 1. cbn [self].
  destruct (Py.nonempty (apptainer_path (self s1))) as [path|] eqn:Epath.
  - destruct (Hs1 path eq_refl) as (Hrec & Htruthy & Horigin).
    unfold try_except, bind, host_call, logger, emit, ret, raise.
    fold (version_args path).
    destruct (run h (version_args path)) as [e|result] eqn:Erun; cbn.
    + destruct (is_timeout e); discriminate.
    + destruct (Z.eqb_spec (returncode result) 0) as [Hrc|Hrc]; cbn;
        [|discriminate].
      intros [= <-]. cbn [self]. exists path, result. auto.
  - unfold bind, logger, emit, raise. discriminate.
Qed.

Lemma validation_records_working_binary_witness :
  exists binary result,
    Some "/usr/bin/apptainer" = Some binary
    /\ run demo_host (version_args binary) = inr result
    /\ returncode result = 0%Z.
Proof.
  destruct (validation_records_working_binary demo_host (mkState demo_executor [])
              (mkState (set_apptainer_path (Some "/usr/bin/apptainer") demo_executor)
                 [Logged INFO (Text "Found apptainer at: /usr/bin/apptainer");
                  Logged INFO (VersionCheckSuccessful "apptainer version 1.2.3")])
              eq_refl)
    as (binary & result & Hrec & _ & _ & Hrun & Hrc).
  exists binary, result. repeat split; assumption.
Defined.

(** * What the methods leave unchanged *)

Section Respects.
Variable R : state -> state -> Prop.
Hypothesis R_refl : forall s, R s s.
Hypothesis R_trans : forall s1 s2 s3, R s1 s2 -> R s2 s3 -> R s1 s3.
(** Events other than a written execution log keep [R], and so does
    recording the binary. *)
Hypothesis R_emit :
  forall ev s, is_written ev = false -> R s (mkState (self s) (trace s ++ [ev])%list).
Hypothesis R_assign :
  forall p s, R s (mkState (set_apptainer_path (Some p) (self s)) (trace s)).

Lemma respects_ret {A} (a : A) : respects R (ret a).
Proof. intros s. apply R_refl. Qed.

Lemma respects_raise {A} (e : exn) : respects R (@raise A e).
Proof. intros s. apply R_refl. Qed.

Lemma respects_lift {A} (o : outcome A) : respects R (lift o).
Proof. intros s. apply R_refl. Qed.

Lemma respects_get_self : respects R get_self.
Proof. intros s. apply R_refl. Qed.

Lemma respects_host_call {A} (r : exn + A) : respects R (host_call r).
Proof. destruct r; [apply respects_raise | apply respects_ret]. Qed.

Lemma respects_host_do (r : option exn) : respects R (host_do r).
Proof. destruct r; [apply respects_raise | apply respects_ret]. Qed.

Lemma respects_bind {A B} (m : M A) (k : A -> M B) :
  respects R m -> (forall a, respects R (k a)) -> respects R (bind m k).
Proof.
  intros Hm Hk s. unfold bind. specialize (Hm s).
  destruct (m s) as [[a|e] s1]; cbn [snd] in *; [|assumption].
  eapply R_trans; [exact Hm | apply Hk].
Qed.

Lemma respects_try_except {A} (body : M A) (handler : exn -> M A) :
  respects R body -> (forall e, respects R (handler e)) ->
  respects R (try_except body handler).
Proof.
  intros Hb Hh s. unfold try_except. specialize (Hb s).
  destruct (body s) as [[a|e] s1]; cbn [snd] in *; [assumption|].
  eapply R_trans; [exact Hb | apply Hh].
Qed.

Lemma respects_emit (ev : event) : is_written ev = false -> respects R (emit ev).
Proof. intros Hev s. now apply R_emit. Qed.

Lemma respects_logger lvl msg : respects R (logger lvl msg).
Proof. now apply respects_emit. Qed.

Lemma respects_assign p : respects R (assign_apptainer_path p).
Proof. intros s. apply R_assign. Qed.

Ltac respects_step :=
  match goal with
  | |- respects _ (bind _ _) => apply respects_bind; [|intros ?]
  | |- respects _ (try_except _ _) => apply respects_try_except; [|intros ?]
  | |- respects _ (ret _) => apply respects_ret
  | |- respects _ (raise _) => apply respects_raise
  | |- respects _ (lift _) => apply respects_lift
  | |- respects _ get_self => apply respects_get_self
  | |- respects _ (host_call _) => apply respects_host_call
  | |- respects _ (host_do _) => apply respects_host_do
  | |- respects _ (logger _ _) => apply respects_logger
  | |- respects _ (emit _) => apply respects_emit; reflexivity
  | |- respects _ (assign_apptainer_path _) => apply respects_assign
  | |- respects _ (match ?x with _ => _ end) => destruct x
  end.

Lemma find_apptainer_binary_respects h : respects R (find_apptainer_binary h).
Proof. unfold find_apptainer_binary. repeat respects_step. Qed.

Lemma validate_apptainer_availability_respects h :
  respects R (validate_apptainer_availability h).
Proof.
  unfold validate_apptainer_availability. repeat respects_step.
  apply find_apptainer_binary_respects.
Qed.

Lemma validate_all_arguments_respects h kwargs :
  respects R (validate_all_arguments h kwargs).
Proof.
  unfold validate_all_arguments, handle_apptainer_kwargs_errors.
  repeat respects_step.
Qed.

Lemma setup_logging_respects h name : respects R (setup_logging h name).
Proof. unfold setup_logging. repeat respects_step. Qed.

(** The rest needs [R] to be kept by a written execution log too. *)
Hypothesis R_emit_written :
  forall path content s,
    R s (mkState (self s) (trace s ++ [Written path content])%list).

Lemma write_log_respects h path content : respects R (write_log h path content).
Proof.
  unfold write_log. repeat respects_step. intros s. apply R_emit_written.
Qed.

Lemma run_and_log_respects h cmd primary copy :
  respects R (run_and_log h cmd primary copy).
Proof.
  unfold run_and_log. repeat respects_step; apply write_log_respects.
Qed.

Lemma execute_command_respects h kwargs : respects R (execute_command h kwargs).
Proof.
  unfold execute_command.
  repeat first [ apply validate_apptainer_availability_respects
               | apply validate_all_arguments_respects
               | apply setup_logging_respects
               | apply run_and_log_respects
               | respects_step ].
Qed.

End Respects.

Lemma same_config_respected {A} (m : M A) :
  (forall R : state -> state -> Prop,
      (forall s, R s s) ->
      (forall s1 s2 s3, R s1 s2 -> R s2 s3 -> R s1 s3) ->
      (forall ev s, is_written ev = false ->
                    R s (mkState (self s) (trace s ++ [ev])%list)) ->
      (forall p s, R s (mkState (set_apptainer_path (Some p) (self s)) (trace s))) ->
      (forall path content s,
          R s (mkState (self s) (trace s ++ [Written path content])%list)) ->
      respects R m) ->
  respects same_config m.
Proof.
  intros H. apply H; unfold same_config; cbn [self]; try reflexivity.
  intros s1 s2 s3 H12 H23. congruence.
Qed.

Lemma written_app_other s ev :
  is_written ev = false ->
  written (mkState (self s) (trace s ++ [ev])%list) = written s.
Proof.
  intros Hev. unfold written. cbn [trace]. rewrite filter_app. cbn [filter].
  rewrite Hev. apply app_nil_r.
Qed.

Lemma same_written_respected {A} (m : M A) :
  (forall R : state -> state -> Prop,
      (forall s, R s s) ->
      (forall s1 s2 s3, R s1 s2 -> R s2 s3 -> R s1 s3) ->
      (forall ev s, is_written ev = false ->
                    R s (mkState (self s) (trace s ++ [ev])%list)) ->
      (forall p s, R s (mkState (set_apptainer_path (Some p) (self s)) (trace s))) ->
      respects R m) ->
  respects same_written m.
Proof.
  intros H. apply H; unfold same_written.
  - reflexivity.
  - intros s1 s2 s3 H12 H23. congruence.
  - intros ev s Hev. now apply written_app_other.
  - reflexivity.
Qed.

(** * Further properties of the execution coordinator *)

(** X19.  [execute_command] changes no field of the executor other than the
    recorded binary path, whatever happens during the call. *)
Theorem execute_command_keeps_configuration (h : Host)
    (kwargs : Py.dict Py.value) (st : state) :
  sif_path (self (snd (execute_command h kwargs st))) = sif_path (self st)
  /\ n_proc (self (snd (execute_command h kwargs st))) = n_proc (self st)
  /\ workdir (self (snd (execute_command h kwargs st))) = workdir (self st)
  /\ env (self (snd (execute_command h kwargs st))) = env (self st)
  /\ timeout (self (snd (execute_command h kwargs st))) = timeout (self st)
  /\ log_copy_dir (self (snd (execute_command h kwargs st))) = log_copy_dir (self st).
Proof.
  assert (config (self (snd (execute_command h kwargs st))) = config (self st))
    as Hcfg.
  { apply (same_config_respected (execute_command h kwargs)).
    intros R H1 H2 H3 H4 H5. now apply execute_command_respects. }
  repeat split.
  - exact (f_equal sif_path Hcfg).
  - exact (f_equal n_proc Hcfg).
  - exact (f_equal workdir Hcfg).
  - exact (f_equal env Hcfg).
  - exact (f_equal timeout Hcfg).
  - exact (f_equal log_copy_dir Hcfg).
Qed.

(** From a passed validation to the spawn: the command is built, the log
    paths are set up, and the [try] statement runs in a state with the same
    executor and the same written logs. *)
Lemma execute_command_spawns h kwargs st st1 cmd :
  validate_apptainer_availability h st = (Return tt, st1) ->
  build_command h (self st1) (fst (sort_apptainer_kwargs kwargs))
    (fst (sort_ngpb_kwargs kwargs)) = Return cmd ->
  (forall d, log_copy_dir (self st1) = Some d -> mkdir h d = None) ->
  exists s2,
    execute_command h kwargs st
    = run_and_log h cmd (primary_log_of h (self st1))
        (option_map (fun d => path_join h d "apptainer_execution.log")
                    (log_copy_dir (self st1))) s2
    /\ self s2 = self st1
    /\ written s2 = written st.
Proof.
  intros Hval Hbuild Hdir.
  assert (written st1 = written st) as Hw1.
  { pose proof (same_written_respected (validate_apptainer_availability h)
                  (fun R H1 H2 H3 H4 =>
                     validate_apptainer_availability_respects R H1 H2 H3 H4 h) st)
      as H. unfold same_written in H. now rewrite Hval in H. }
  assert (written (snd (validate_all_arguments h kwargs st1)) = written st1) as Hw2.
  { exact (same_written_respected (validate_all_arguments h kwargs)
             (fun R H1 H2 H3 H4 =>
                validate_all_arguments_respects R H1 H2 H3 h kwargs) st1). }
  unfold execute_command, bind at 1. rewrite Hval.
  unfold bind at 1.
  destruct (validate_all_arguments_silent h kwargs st1) as [tr1 Hva].
  rewrite Hva in Hw2 |- *. cbn [snd] in Hw2.
  destruct (sort_apptainer_kwargs kwargs) as [a ua].
  destruct (sort_ngpb_kwargs kwargs) as [n un].
  cbn [fst] in Hbuild.
  unfold bind at 1, get_self. cbn [self].
  unfold bind at 1, lift. rewrite Hbuild.
  unfold bind at 1.
  assert (exists tr,
            setup_logging h "apptainer_execution.log" (mkState (self st1) tr1)
            = (Return (primary_log_of h (self st1),
                       option_map (fun d => path_join h d "apptainer_execution.log")
                                  (log_copy_dir (self st1))),
               mkState (self st1) tr)
            /\ written (mkState (self st1) tr) = written (mkState (self st1) tr1))
    as (tr2 & -> & Hw3).
  { unfold setup_logging, bind, get_self, host_do, emit, ret, primary_log_of.
    cbn [self].
    destruct (log_copy_dir (self st1)) as [d|] eqn:Ed; cbn.
    - rewrite (Hdir d eq_refl). cbn. eexists. split; [reflexivity|].
      exact (written_app_other (mkState (self st1) tr1) (DirectoryMade d) eq_refl).
    - eexists. split; reflexivity. }
  unfold bind at 1, logger, emit. cbn [self trace].
  eexists. split; [reflexivity|]. split; [reflexivity|].
  etransitivity;
    [exact (written_app_other (mkState (self st1) tr2)
              (Logged INFO (Text ("Executing command: " ++ Py.join " " cmd)))
              eq_refl)|].
  congruence.
Qed.

(** The [try] statement when the spawn raises. *)
Lemma run_and_log_spawn_fails h cmd primary copy s e :
  run h (spawn_args h (self s) cmd) = inl e ->
  fst (run_and_log h cmd primary copy s)
  = Raised (mkExn RuntimeError
              (if is_timeout e then timed_out_msg (self s) cmd
               else unexpected_msg (self s) cmd e))
  /\ written (snd (run_and_log h cmd primary copy s)) = written s.
Proof.
  intros Hrun. unfold spawn_args in Hrun.
  remember (run_and_log h cmd primary copy s) as r eqn:Hr.
  unfold run_and_log, bind at 1, get_self, try_except, bind at 1, host_call in Hr.
  rewrite Hrun in Hr. unfold raise at 1 in Hr.
  unfold bind, logger, emit, raise in Hr.
  destruct (is_timeout e); cbn in Hr; subst r; cbn [fst snd]; split;
    try reflexivity;
    match goal with
    | |- written (mkState (self s) (trace s ++ [?ev])%list) = _ =>
        exact (written_app_other s ev eq_refl)
    end.
Qed.

(** X20.  When the spawn itself raises, [execute_command] raises a
    [RuntimeError]: the "timed out" message with the configured timeout when
    the exception is a timeout, the "unexpected error" message around the
    cause otherwise.  No execution log is written in either case. *)
Theorem spawn_failure_reported (h : Host) (kwargs : Py.dict Py.value)
    (st st1 : state) (cmd : list string) (e : exn) :
  validate_apptainer_availability h st = (Return tt, st1) ->
  build_command h (self st1) (fst (sort_apptainer_kwargs kwargs))
    (fst (sort_ngpb_kwargs kwargs)) = Return cmd ->
  (forall d, log_copy_dir (self st1) = Some d -> mkdir h d = None) ->
  run h (spawn_args h (self st1) cmd) = inl e ->
  fst (execute_command h kwargs st)
  = Raised (mkExn RuntimeError
              (if is_timeout e then timed_out_msg (self st1) cmd
               else unexpected_msg (self st1) cmd e))
  /\ written (snd (execute_command h kwargs st)) = written st.
Proof.
  intros Hval Hbuild Hdir Hrun.
  destruct (execute_command_spawns h kwargs st st1 cmd Hval Hbuild Hdir)
    as (s2 & -> & Hself & Hw).
  rewrite <- Hself in Hrun |- *.
  destruct (run_and_log_spawn_fails h cmd
              (primary_log_of h (self s2))
              (option_map (fun d => path_join h d "apptainer_execution.log")
                          (log_copy_dir (self s2))) s2 e Hrun) as [Hout Hwr].
  split; [exact Hout | congruence].
Qed.

Lemma spawn_failure_reported_witness :
  fst (execute_command (with_run run_timing_out demo_host) []
         (mkState (mkExecutor "/data/test.sif" 1 "/work" [] (Some 60%Z) None None) []))
  = Raised (mkExn RuntimeError
              ("Apptainer execution timed out after 60 seconds. "
               ++ "Command: /usr/bin/apptainer exec --pwd /App --bind /work:/App "
               ++ "/data/test.sif mpirun -np 1 ngpb. "
               ++ "Consider increasing the timeout parameter."))
  /\ written (snd (execute_command (with_run run_timing_out demo_host) []
                     (mkState (mkExecutor "/data/test.sif" 1 "/work" []
                                 (Some 60%Z) None None) [])))
     = [].
Proof.
  apply (spawn_failure_reported (with_run run_timing_out demo_host) []
           (mkState (mkExecutor "/data/test.sif" 1 "/work" [] (Some 60%Z) None None) [])
           (mkState (mkExecutor "/data/test.sif" 1 "/work" [] (Some 60%Z) None
                       (Some "/usr/bin/apptainer"))
              [Logged INFO (Text "Found apptainer at: /usr/bin/apptainer");
               Logged INFO (VersionCheckSuccessful "apptainer version 1.2.3")])
           ["/usr/bin/apptainer"; "exec"; "--pwd"; "/App"; "--bind"; "/work:/App";
            "/data/test.sif"; "mpirun"; "-np"; "1"; "ngpb"]
           (mkExn TimeoutExpired "Command 'test' timed out after 60 seconds")).
  - reflexivity.
  - reflexivity.
  - intros d Hd. discriminate Hd.
  - reflexivity.
Defined.

(** The [try] statement writes the record to the primary log, and to the
    copy, before it looks at the return code; the write to the copy is
    reached when the primary write is caught. *)
Lemma run_and_log_writes h cmd primary copy s result :
  run h (spawn_args h (self s) cmd) = inr result ->
  (open_file h primary "w" = None ->
   In (Written primary (log_record cmd result))
      (trace (snd (run_and_log h cmd primary copy s))))
  /\ (forall c, copy = Some c -> open_file h c "w" = None ->
                write_caught h primary = true ->
                In (Written c (log_record cmd result))
                   (trace (snd (run_and_log h cmd primary copy s)))).
Proof.
  intros Hrun. unfold spawn_args in Hrun.
  remember (run_and_log h cmd primary copy s) as r eqn:Hr.
  unfold run_and_log, bind at 1, get_self, try_except, bind at 1, host_call in Hr.
  rewrite Hrun in Hr. unfold ret at 1 in Hr.
  fold (log_record cmd result) in Hr.
  unfold bind at 1 in Hr.
  pose proof (write_log_cases h primary (log_record cmd result) s) as Hp.
  split.
  - intros Hopen. rewrite Hopen in Hp. rewrite Hp in Hr.
    unfold bind at 1 in Hr.
    destruct copy as [c|].
    + pose proof (write_log_cases h c (log_record cmd result)
                    (mkState (self s)
                       (trace s ++ [Written primary (log_record cmd result)])%list))
        as Hc.
      destruct (open_file h c "w") as [e|];
        [destruct (create_logging_error_message h e c)|];
        rewrite Hc in Hr;
        unfold bind, logger, emit, ret, raise in Hr;
        try destruct (is_timeout _);
        try destruct (negb (returncode result =? 0)%Z);
        cbn in Hr; subst r; cbn [snd trace self];
        rewrite ?in_app_iff; cbn; auto 10.
    + unfold bind, logger, emit, ret, raise in Hr.
      destruct (negb (returncode result =? 0)%Z);
        cbn in Hr; subst r; cbn [snd trace self];
        rewrite ?in_app_iff; cbn; auto 10.
  - intros c -> Hopen Hcaught.
    destruct (write_log_caught h primary (log_record cmd result) s Hcaught)
      as [tr1 Hw].
    rewrite Hw in Hr. unfold bind at 1 in Hr.
    pose proof (write_log_cases h c (log_record cmd result) (mkState (self s) tr1))
      as Hc.
    rewrite Hopen in Hc. rewrite Hc in Hr.
    unfold bind, logger, emit, ret, raise in Hr.
    destruct (negb (returncode result =? 0)%Z);
      cbn in Hr; subst r; cbn [snd trace self];
      rewrite ?in_app_iff; cbn; auto 10.
Qed.

(** X21.  Once the subprocess has completed, with any exit status, the
    record of the command, the return code and both streams is written to
    the primary log whenever that file can be opened: a failing run is
    logged too.  It is written to the copy in the configured directory
    whenever that file can be opened and the primary write was caught (it
    succeeded, or its failure could be reported). *)
Theorem completed_run_is_logged (h : Host) (kwargs : Py.dict Py.value)
    (st st1 : state) (cmd : list string) (result : completed) :
  validate_apptainer_availability h st = (Return tt, st1) ->
  build_command h (self st1) (fst (sort_apptainer_kwargs kwargs))
    (fst (sort_ngpb_kwargs kwargs)) = Return cmd ->
  (forall d, log_copy_dir (self st1) = Some d -> mkdir h d = None) ->
  run h (spawn_args h (self st1) cmd) = inr result ->
  (open_file h (primary_log_of h (self st1)) "w" = None ->
   In (Written (primary_log_of h (self st1)) (log_record cmd result))
      (trace (snd (execute_command h kwargs st))))
  /\ (forall d, log_copy_dir (self st1) = Some d ->
                open_file h (path_join h d "apptainer_execution.log") "w" = None ->
                write_caught h (primary_log_of h (self st1)) = true ->
                In (Written (path_join h d "apptainer_execution.log")
                            (log_record cmd result))
                   (trace (snd (execute_command h kwargs st)))).
Proof.
  intros Hval Hbuild Hdir Hrun.
  destruct (execute_command_spawns h kwargs st st1 cmd Hval Hbuild Hdir)
    as (s2 & -> & Hself & _).
  rewrite <- Hself in Hrun.
  destruct (run_and_log_writes h cmd (primary_log_of h (self st1))
              (option_map (fun d => path_join h d "apptainer_execution.log")
                          (log_copy_dir (self st1))) s2 result Hrun)
    as [Hprimary Hcopy].
  split; [exact Hprimary|].
  intros d Hd Hopen Hcaught. apply Hcopy; [|exact Hopen|exact Hcaught].
  now rewrite Hd.
Qed.

Lemma completed_run_is_logged_witness :
  In (Written "/work/logs/apptainer_execution.log"
        (log_record
           ["/usr/bin/apptainer"; "exec"; "--pwd"; "/App"; "--bind"; "/work:/App";
            "--bind"; "/tmp:/tmp"; "/data/test.sif"; "mpirun"; "-np"; "2";
            "ngpb"; "--prmfile"; "config.prm"]
           (mkCompleted 1 "" "Error occurred")))
     (trace (snd (execute_command demo_host scenario_kwargs
                    (mkState
                       (mkExecutor "/data/test.sif" 2 "/work" [] None
                                   (Some "/work/logs") None) [])))).
Proof.
  apply (proj2
           (completed_run_is_logged demo_host scenario_kwargs
           (mkState (mkExecutor "/data/test.sif" 2 "/work" [] None
                                (Some "/work/logs") None) [])
           (mkState (mkExecutor "/data/test.sif" 2 "/work" [] None
                                (Some "/work/logs") (Some "/usr/bin/apptainer"))
              [Logged INFO (Text "Found apptainer at: /usr/bin/apptainer");
               Logged INFO (VersionCheckSuccessful "apptainer version 1.2.3")])
           ["/usr/bin/apptainer"; "exec"; "--pwd"; "/App"; "--bind"; "/work:/App";
            "--bind"; "/tmp:/tmp"; "/data/test.sif"; "mpirun"; "-np"; "2";
            "ngpb"; "--prmfile"; "config.prm"]
           (mkCompleted 1 "" "Error occurred")
           eq_refl eq_refl (fun d _ => eq_refl) eq_refl)
          "/work/logs"); reflexivity.
Defined.




Lemma try_except_raises {A} (body : M A) (handler : exn -> M A) s e s' :
  try_except body handler s = (Raised e, s') ->
  exists e0 s1, body s = (Raised e0, s1) /\ handler e0 s1 = (Raised e, s').
Proof.
  unfold try_except. destruct (body s) as [[a|e0] s1]; [discriminate|].
  intros H. eauto.
Qed.

(** Whatever is raised inside the [try] statement leaves it as a
    [RuntimeError]. *)
Lemma run_and_log_raises_runtime h cmd primary copy s e s' :
  run_and_log h cmd primary copy s = (Raised e, s') ->
  exn_kind e = RuntimeError.
Proof.
  unfold run_and_log, bind at 1, get_self. intros Hraise.
  apply try_except_raises in Hraise as (e0 & s1 & _ & Hhandler).
  revert Hhandler. unfold bind, logger, emit, raise.
  destruct (is_timeout e0); cbn; now intros [= <- _].
Qed.

(** X23.  Once validation has passed, the command is built and the directory
    for the copy of the log is available, every exception that leaves
    [execute_command] is a [RuntimeError]: whatever is raised inside the
    [try] statement (by the spawn, by the report of a failed log write, or
    for a non-zero exit status) is converted by one of its two handlers. *)
Theorem execute_command_raises (h : Host) (kwargs : Py.dict Py.value)
    (st st1 st' : state) (cmd : list string) (e : exn) :
  validate_apptainer_availability h st = (Return tt, st1) ->
  build_command h (self st1) (fst (sort_apptainer_kwargs kwargs))
    (fst (sort_ngpb_kwargs kwargs)) = Return cmd ->
  (forall d, log_copy_dir (self st1) = Some d -> mkdir h d = None) ->
  execute_command h kwargs st = (Raised e, st') ->
  exn_kind e = RuntimeError.
Proof.
  intros Hval Hbuild Hdir Hraise.
  destruct (execute_command_spawns h kwargs st st1 cmd Hval Hbuild Hdir)
    as (s2 & Hexec & _).
  rewrite Hexec in Hraise.
  now apply run_and_log_raises_runtime in Hraise.
Qed.

Lemma execute_command_raises_witness :
  exn_kind
    (match fst (execute_command (stranded_host 0) scenario_kwargs
                  (mkState demo_executor [])) with
     | Raised e => e
     | Return _ => mkExn OtherException ""
     end)
  = RuntimeError.
Proof.
  destruct (execute_command (stranded_host 0) scenario_kwargs
              (mkState demo_executor [])) as [[r|e] st'] eqn:E; cbn [fst].
  - vm_compute in E. discriminate E.
  - apply (execute_command_raises (stranded_host 0) scenario_kwargs
             (mkState demo_executor [])
             (mkState (set_apptainer_path (Some "/usr/bin/apptainer") demo_executor)
                [Logged INFO (Text "Found apptainer at: /usr/bin/apptainer");
                 Logged INFO (VersionCheckSuccessful "apptainer version 1.2.3")])
             st'
             ["/usr/bin/apptainer"; "exec"; "--pwd"; "/App"; "--bind"; "/work:/App";
              "--bind"; "/tmp:/tmp"; "/data/test.sif"; "mpirun"; "-np"; "2";
              "ngpb"; "--prmfile"; "config.prm"]
             e).
    + reflexivity.
    + reflexivity.
    + intros d Hd. discriminate Hd.
    + exact E.
Defined.

(** * The environment of the subprocess *)

Lemma update_get {V} (e : Py.dict V) : forall (d : Py.dict V) (k : string),
  NoDup (Py.keys e) ->
  Py.get k (Py.update d e)
  = match Py.get k e with
    | Some v => Some v
    | None => Py.get k d
    end.
Proof.
  unfold Py.update.
  induction e as [|[k0 v0] e IH]; intros d k Hnd; cbn [fold_left Py.get fst snd].
  - reflexivity.
  - cbn [Py.keys map fst] in Hnd. inversion Hnd as [|? ? Hnotin Hnd']; subst.
    rewrite IH by assumption.
    destruct (String.eqb_spec k0 k) as [->|Hne].
    + apply get_None in Hnotin. rewrite Hnotin. apply get_set_same.
    + destruct (Py.get k e); [reflexivity|]. now apply get_set_other.
Qed.

(** X24.  [execute_command] spawns the command in the working directory of
    the executor, with its timeout, and in the inherited environment
    overlaid with the executor's: a variable set in [env] has the value given
    there, every other variable keeps its inherited value.  What the host
    answers to exactly that spawn decides the outcome of the call. *)
Theorem spawn_environment_overlay (h : Host) (kwargs : Py.dict Py.value)
    (st st1 : state) (cmd : list string) :
  validate_apptainer_availability h st = (Return tt, st1) ->
  build_command h (self st1) (fst (sort_apptainer_kwargs kwargs))
    (fst (sort_ngpb_kwargs kwargs)) = Return cmd ->
  (forall d, log_copy_dir (self st1) = Some d -> mkdir h d = None) ->
  NoDup (Py.keys (env (self st1))) ->
  exists exec_env,
    (forall k,
        Py.get k exec_env
        = match Py.get k (env (self st1)) with
          | Some v => Some v
          | None => Py.get k (environ h)
          end)
    /\ match run h (mkRun cmd (timeout (self st1)) (Some exec_env)
                          (Some (workdir (self st1)))) with
       | inl e =>
           fst (execute_command h kwargs st)
           = Raised (mkExn RuntimeError
                       (if is_timeout e then timed_out_msg (self st1) cmd
                        else unexpected_msg (self st1) cmd e))
       | inr result =>
           write_caught h (primary_log_of h (self st1)) = true ->
           (forall d, log_copy_dir (self st1) = Some d ->
                      write_caught h (path_join h d "apptainer_execution.log") = true) ->
           fst (execute_command h kwargs st)
           = if (returncode result =? 0)%Z then Return result
             else Raised (mkExn RuntimeError
                            (unexpected_msg (self st1) cmd
                               (mkExn RuntimeError
                                  (failed_msg cmd result
                                     (primary_log_of h (self st1))))))
       end.
Proof.
  intros Hval Hbuild Hdir Hnd.
  exists (Py.update (environ h) (env (self st1))). split.
  - intros k. now apply update_get.
  - change (mkRun cmd (timeout (self st1))
              (Some (Py.update (environ h) (env (self st1))))
              (Some (workdir (self st1))))
      with (spawn_args h (self st1) cmd).
    destruct (run h (spawn_args h (self st1) cmd)) as [e|result] eqn:Hrun.
    + destruct (execute_command_spawns h kwargs st st1 cmd Hval Hbuild Hdir)
        as (s2 & -> & Hself & _).
      rewrite <- Hself in Hrun |- *.
      exact (proj1 (run_and_log_spawn_fails h cmd _ _ s2 e Hrun)).
    + intros Hprimary Hcopy.
      exact (execute_command_completed h kwargs st st1 cmd result
               Hval Hbuild Hdir Hrun Hprimary Hcopy).
Qed.

Lemma spawn_environment_overlay_witness :
  exists exec_env,
    Py.get "PATH" exec_env = Some "/opt/bin"
    /\ Py.get "HOME" exec_env = None
    /\ run demo_host
         (mkRun ["/usr/bin/apptainer"; "exec"; "--pwd"; "/App"; "--bind";
                 "/work:/App"; "/data/test.sif"; "mpirun"; "-np"; "1"; "ngpb"]
                None (Some exec_env) (Some "/work"))
       = inr (mkCompleted 1 "" "Error occurred").
Proof.
  destruct (spawn_environment_overlay demo_host []
              (mkState (mkExecutor "/data/test.sif" 1 "/work"
                          [("PATH", "/opt/bin"); ("TEST_VAR", "test_value")]
                          None None None) [])
              (mkState (mkExecutor "/data/test.sif" 1 "/work"
                          [("PATH", "/opt/bin"); ("TEST_VAR", "test_value")]
                          None None (Some "/usr/bin/apptainer"))
                 [Logged INFO (Text "Found apptainer at: /usr/bin/apptainer");
                  Logged INFO (VersionCheckSuccessful "apptainer version 1.2.3")])
              ["/usr/bin/apptainer"; "exec"; "--pwd"; "/App"; "--bind";
               "/work:/App"; "/data/test.sif"; "mpirun"; "-np"; "1"; "ngpb"])
    as (exec_env & Hget & _).
  - reflexivity.
  - reflexivity.
  - intros d Hd. discriminate Hd.
  - repeat constructor; cbn; intuition discriminate.
  - exists exec_env. split; [rewrite Hget; reflexivity|].
    split; [rewrite Hget; reflexivity | reflexivity].
Defined.

(** * Construction *)

(** X25.  The constructor returns an executor exactly when the working
    directory can be made, the SIF file exists, the process count is
    positive and the timeout, when given, is positive. *)
Theorem init_succeeds_iff (h : Host) (sif : string) (n : Z) (D : string)
    (env0 : option (Py.dict string)) (t : option Z) (lc : option string) :
  (exists ex, init h sif n D env0 t lc = Return ex)
  <-> mkdir h (path_of h D) = None
      /\ path_exists h (path_of h sif) = true
      /\ (0 < n)%Z
      /\ (forall z, t = Some z -> (0 < z)%Z).
Proof.
  unfold init. cbn [workdir sif_path n_proc timeout].
  destruct (mkdir h (path_of h D)) as [e|].
  { split; [intros [ex [=]] | intros [[=] _]]. }
  destruct (path_exists h (path_of h sif)); cbn [negb].
  2: { split; [intros [ex [=]] | intros (_ & [=] & _)]. }
  destruct (Z.leb_spec n 0).
  { split; [intros [ex [=]] | intros (_ & _ & Hn & _); lia]. }
  destruct t as [z|].
  - destruct (Z.leb_spec z 0).
    + split; [intros [ex [=]] | intros (_ & _ & _ & Hz)].
      specialize (Hz z eq_refl). lia.
    + split; [|eauto]. intros _. repeat split; try assumption.
      now intros ? [= <-].
  - split; [|eauto]. intros _. repeat split; try assumption. discriminate.
Qed.

(** X26.  An executor returned by the constructor has a positive process
    count, a positive timeout if it has one, an existing SIF file, the
    environment overlay that was given (empty when none was), and no binary
    recorded yet. *)
Theorem constructed_executor_invariant (h : Host) (sif : string) (n : Z)
    (D : string) (env0 : option (Py.dict string)) (t : option Z)
    (lc : option string) (ex : executor) :
  init h sif n D env0 t lc = Return ex ->
  (0 < n_proc ex)%Z
  /\ (forall z, timeout ex = Some z -> (0 < z)%Z)
  /\ path_exists h (sif_path ex) = true
  /\ env ex = match env0 with Some e => e | None => [] end
  /\ apptainer_path ex = None.
Proof.
  intros Hinit.
  pose proof (init_fields h sif n D env0 t lc ex Hinit)
    as (Hsif & Hn & _ & Ht & Hpath & Hpos & Htpos).
  rewrite Hn, Ht, Hsif. repeat split; try assumption.
  - revert Hinit. unfold init. cbn [workdir sif_path n_proc timeout].
    destruct (mkdir h (path_of h D)); [discriminate|].
    destruct (path_exists h (path_of h sif)); [reflexivity | discriminate].
  - revert Hinit. unfold init. cbn [workdir sif_path n_proc timeout].
    destruct (mkdir h (path_of h D)); [discriminate|].
    destruct (negb (path_exists h (path_of h sif))); [discriminate|].
    destruct (n <=? 0)%Z; [discriminate|].
    destruct t as [z|]; [destruct (z <=? 0)%Z; [discriminate|]|];
      now intros [= <-].
Qed.

Lemma constructed_executor_invariant_witness :
  (0 < n_proc demo_executor)%Z
  /\ (forall z, timeout demo_executor = Some z -> (0 < z)%Z)
  /\ path_exists demo_host (sif_path demo_executor) = true
  /\ env demo_executor = []
  /\ apptainer_path demo_executor = None.
Proof.
  exact (constructed_executor_invariant demo_host "/data/test.sif" 2 "/work"
           None None None demo_executor eq_refl).
Defined.

(** * The installer entry point *)

(** X27.  [main] returns normally exactly when [setup.sh] exists and bash
    exits with status 0.  It never calls [sys.exit] with status 0: the
    status is 1 when the script is missing, and otherwise the non-zero
    status of the script; each such exit prints one line to standard
    error. *)
Theorem setup_main_exit_status (h : Setup.Host) :
  (fst (Setup.main h) = Setup.Returned
   <-> Setup.exists_ h (Setup.script_path h) = true
       /\ Setup.run_bash h ["bash"; Setup.script_path h] = inr 0%Z)
  /\ (forall code, fst (Setup.main h) = Setup.SystemExit code ->
        code <> 0%Z
        /\ (Setup.exists_ h (Setup.script_path h) = false -> code = 1%Z)
        /\ (Setup.exists_ h (Setup.script_path h) = true ->
            Setup.run_bash h ["bash"; Setup.script_path h] = inr code)
        /\ length (snd (Setup.main h)) = 1).
Proof.
  unfold Setup.main, Setup.run_checked.
  destruct (Setup.exists_ h (Setup.script_path h)); cbn [negb fst snd].
  - destruct (Setup.run_bash h _) as [e|status]; cbn [fst snd].
    + split; [split; [discriminate | intros [_ [=]]] | discriminate].
    + destruct (Z.eqb_spec status 0) as [->|Hne]; cbn [fst snd].
      * split; [split; auto | discriminate].
      * split.
        -- split; [discriminate | intros [_ [= ->]]; contradiction].
        -- intros code [= <-]. repeat split; auto. discriminate.
  - split; [split; [discriminate | intros [[=] _]]|].
    intros code [= <-]. repeat split; auto; discriminate.
Qed.

Lemma setup_main_exit_status_witness :
  fst (Setup.main (Setup.mkHost "/pkg/setup.sh" (fun _ => true) (fun _ => inr 3%Z)))
  = Setup.SystemExit 3
  /\ 3%Z <> 0%Z.
Proof.
  split; [reflexivity|].
  apply (proj2 (setup_main_exit_status
                  (Setup.mkHost "/pkg/setup.sh" (fun _ => true) (fun _ => inr 3%Z)))
           3%Z eq_refl).
Defined.

Lemma validate_all_arguments_harmless_witness :
  validate_all_arguments (with_open_file refuse_files demo_host)
    [("bind", Py.VStr "/tmp:/tmp"); ("memory", Py.VInt 1024)]
    (mkState demo_executor [])
  = (Return tt, mkState demo_executor []).
Proof.
  apply (validate_all_arguments_harmless (with_open_file refuse_files demo_host)
           [("bind", Py.VStr "/tmp:/tmp"); ("memory", Py.VInt 1024)]
           (mkState demo_executor [])).
  - intros item [<-|[<-|[]]]; vm_compute; reflexivity.
  - reflexivity.
  - reflexivity.
Defined.

(** * From option values to tokens *)

Lemma set_entries {V} (k : string) (v : V) (d : Py.dict V) (k' : string) (v' : V) :
  In (k', v') (Py.set k v d) -> (k', v') = (k, v) \/ In (k', v') d.
Proof.
  induction d as [|[k0 v0] d IH]; cbn [Py.set].
  - intros [H|[]]. left. now symmetry.
  - destruct (String.eqb_spec k0 k) as [->|Hne]; cbn [In].
    + intros [H|H]; [left; now symmetry | right; now right].
    + intros [H|H]; [right; now left|].
      apply IH in H. destruct H; [now left | right; now right].
Qed.

(** Every entry of a sorted mapping is an accepted option of the input with
    its value stringified. *)
Lemma route_provenance d k o kwargs : forall args,
  In (k, o) (fold_left (route d) kwargs args) ->
  In (k, o) args
  \/ exists key value,
       In (key, value) kwargs /\ accepted_as d key = Some k /\ o = stringify value.
Proof.
  induction kwargs as [|[key value] kwargs IH]; intros args; cbn [fold_left].
  - now left.
  - intros H. apply IH in H. destruct H as [H|(key' & value' & Hin & Hacc & Ho)].
    + unfold route in H. cbn [fst snd] in H.
      destruct (accepted_as d key) as [k'|] eqn:E; [|now left].
      apply set_entries in H. destruct H as [[= -> ->]|H]; [|now left].
      right. exists key, value.
      split; [now left | split; [exact E | reflexivity]].
    + right. exists key', value'.
      split; [now right | split; assumption].
Qed.

(** Without two options accepted under one name, the sorted mapping is the
    list of the accepted options in input order. *)
Lemma route_classified d kwargs : forall args,
  NoDup (Py.keys args ++ accepted_names d kwargs) ->
  fold_left (route d) kwargs args = (args ++ classified d kwargs)%list.
Proof.
  unfold accepted_names, Py.keys.
  induction kwargs as [|[key value] kwargs IH]; intros args Hnd.
  - cbn. now rewrite app_nil_r.
  - change (fold_left (route d) ((key, value) :: kwargs) args)
      with (fold_left (route d) kwargs (route d args (key, value))).
    assert (classified d ((key, value) :: kwargs)
            = (match accepted_as d key with
               | Some k => [(k, stringify value)]
               | None => []
               end ++ classified d kwargs)%list) as Hc by reflexivity.
    assert (route d args (key, value)
            = match accepted_as d key with
              | Some k => Py.set k (stringify value) args
              | None => args
              end) as Hr by reflexivity.
    rewrite Hc in Hnd |- *. rewrite Hr. clear Hc Hr.
    destruct (accepted_as d key) as [k|]; cbn [app map fst] in Hnd |- *.
    + rewrite set_fresh.
      * rewrite IH; [now rewrite <- app_assoc|].
        rewrite map_app. cbn [map fst]. rewrite <- app_assoc. exact Hnd.
      * apply NoDup_remove_2 in Hnd. intros Hin. apply Hnd.
        apply in_or_app. now left.
    + now apply IH.
Qed.

Lemma sort_kwargs_classified d kwargs :
  NoDup (accepted_names d kwargs) ->
  fst (sort_kwargs d kwargs) = classified d kwargs.
Proof.
  intros Hnd. rewrite sort_kwargs_fst.
  now rewrite (route_classified d kwargs []).
Qed.

Lemma classified_tokens d kwargs :
  flat_map option_tokens (classified d kwargs) = flat_map (rendered d) kwargs.
Proof.
  induction kwargs as [|[key value] kwargs IH]; [reflexivity|].
  cbn [classified flat_map]. fold (classified d kwargs).
  rewrite flat_map_app, IH. f_equal.
  unfold rendered, stringify, option_tokens. cbn [fst snd].
  destruct (accepted_as d key) as [k|]; [|reflexivity].
  cbn [flat_map]. rewrite app_nil_r.
  now destruct (Py.is_none value).
Qed.

Lemma stringify_tokens k value :
  option_tokens (k, stringify value)
  = if Py.is_none value then ["--" ++ k] else ["--" ++ k; Py.str value].
Proof. unfold option_tokens, stringify. now destruct (Py.is_none value). Qed.

(** C10.  Every option of a sorted mapping is an accepted option of the
    input with its value stringified, and it is rendered as the bare flag
    exactly when that value is [None]: every other value, [False], [0] and
    the empty string included, is stringified and appended as a token of its
    own.  With the binary resolved, the command is built from these tokens;
    when no two options are accepted under one name, every accepted option
    of the input gives its tokens, in input order, so that an empty string
    becomes an empty token of the command. *)
Theorem only_none_is_bare_flag (h : Host) (ex : executor) (binary : string)
    (kwargs : Py.dict Py.value) :
  Py.nonempty (apptainer_path ex) = Some binary ->
  (forall d k o,
      In (k, o) (fst (sort_kwargs d kwargs)) ->
      exists key value,
        In (key, value) kwargs
        /\ accepted_as d key = Some k
        /\ o = stringify value
        /\ option_tokens (k, o)
           = if Py.is_none value then ["--" ++ k] else ["--" ++ k; Py.str value])
  /\ build_command h ex (fst (sort_apptainer_kwargs kwargs))
       (fst (sort_ngpb_kwargs kwargs))
     = Return (scaffold_head h ex binary
               ++ flat_map option_tokens (fst (sort_apptainer_kwargs kwargs))
               ++ scaffold_launcher h ex
               ++ "ngpb" :: flat_map option_tokens (fst (sort_ngpb_kwargs kwargs)))%list
  /\ (NoDup (accepted_names Runtime kwargs) ->
      NoDup (accepted_names Program kwargs) ->
      build_command h ex (fst (sort_apptainer_kwargs kwargs))
        (fst (sort_ngpb_kwargs kwargs))
      = Return (scaffold_head h ex binary
                ++ flat_map (rendered Runtime) kwargs
                ++ scaffold_launcher h ex
                ++ "ngpb" :: flat_map (rendered Program) kwargs)%list)
  /\ (forall (cmd : list string) (key : string) (value : Py.value),
         add_option cmd (key, stringify value)
         = (cmd ++ (if Py.is_none value
                    then [("--" ++ key)%string]
                    else [("--" ++ key)%string; Py.str value]))%list)
  /\ (Py.is_none (Py.VBool false) = false /\ Py.str (Py.VBool false) = "False")
  /\ (Py.is_none (Py.VInt 0) = false /\ Py.str (Py.VInt 0) = "0")
  /\ (Py.is_none (Py.VStr "") = false /\ Py.str (Py.VStr "") = "").
Proof.
  intros Hres. split; [|split; [|split; [|split]]].
  - intros d k o Hin. rewrite sort_kwargs_fst in Hin.
    apply route_provenance in Hin.
    destruct Hin as [[]|(key & value & Hin & Hacc & ->)].
    exists key, value. repeat split; try assumption. apply stringify_tokens.
  - now apply build_command_resolved.
  - intros Hr Hp. rewrite (build_command_resolved h ex _ _ binary Hres).
    change (sort_apptainer_kwargs kwargs) with (sort_kwargs Runtime kwargs).
    change (sort_ngpb_kwargs kwargs) with (sort_kwargs Program kwargs).
    rewrite !sort_kwargs_classified by assumption.
    now rewrite !classified_tokens.
  - intros cmd key value. unfold add_option, stringify.
    now destruct (Py.is_none value).
  - repeat split; reflexivity.
Qed.

Lemma only_none_is_bare_flag_witness :
  build_command demo_host
    (set_apptainer_path (Some "/usr/bin/apptainer") demo_executor)
    (fst (sort_apptainer_kwargs
            [("debug", Py.VBool false); ("memory", Py.VInt 0);
             ("verbose", Py.VNone); ("prmfile", Py.VStr "")]))
    (fst (sort_ngpb_kwargs
            [("debug", Py.VBool false); ("memory", Py.VInt 0);
             ("verbose", Py.VNone); ("prmfile", Py.VStr "")]))
  = Return ["/usr/bin/apptainer"; "exec"; "--pwd"; "/App"; "--bind"; "/work:/App";
            "--debug"; "False"; "--memory"; "0"; "--verbose";
            "/data/test.sif"; "mpirun"; "-np"; "2";
            "ngpb"; "--prmfile"; ""].
Proof.
  destruct (only_none_is_bare_flag demo_host
              (set_apptainer_path (Some "/usr/bin/apptainer") demo_executor)
              "/usr/bin/apptainer"
              [("debug", Py.VBool false); ("memory", Py.VInt 0);
               ("verbose", Py.VNone); ("prmfile", Py.VStr "")]
              eq_refl)
    as (_ & _ & Hcmd & _).
  apply Hcmd.
  - repeat constructor; cbn; intuition discriminate.
  - repeat constructor; cbn; intuition discriminate.
Defined.

(** * The execution result when the log writes are caught *)

(** X28.  When validation has passed, the spawned subprocess completes with
    a non-zero exit status, and each log write succeeds or has its failure
    reported, [execute_command] raises a [RuntimeError] whose message is the
    "execution failed" message, re-raised by the generic handler of the
    [try] statement with its own context around it: it contains the
    "execution failed" text with the exit status, the joined command, both
    captured streams and the primary log path. *)
Theorem execution_failed_when_logs_caught (h : Host)
    (kwargs : Py.dict Py.value) (st st1 : state) (cmd : list string)
    (result : completed) :
  validate_apptainer_availability h st = (Return tt, st1) ->
  build_command h (self st1) (fst (sort_apptainer_kwargs kwargs))
    (fst (sort_ngpb_kwargs kwargs)) = Return cmd ->
  (forall d, log_copy_dir (self st1) = Some d -> mkdir h d = None) ->
  run h (spawn_args h (self st1) cmd) = inr result ->
  returncode result <> 0%Z ->
  write_caught h (primary_log_of h (self st1)) = true ->
  (forall d, log_copy_dir (self st1) = Some d ->
             write_caught h (path_join h d "apptainer_execution.log") = true) ->
  exists msg,
    fst (execute_command h kwargs st) = Raised (mkExn RuntimeError msg)
    /\ msg = unexpected_msg (self st1) cmd
               (mkExn RuntimeError
                  (failed_msg cmd result (primary_log_of h (self st1))))
    /\ embeds ("Apptainer execution failed with return code "
               ++ Py.str_int (returncode result)) msg
    /\ embeds (Py.join " " cmd) msg
    /\ embeds (stdout result) msg
    /\ embeds (stderr result) msg
    /\ embeds (primary_log_of h (self st1)) msg.
Proof.
  intros Hval Hbuild Hdir Hrun Hrc Hprimary Hcopy.
  eexists. split.
  { rewrite (execute_command_completed _ _ _ _ _ _ Hval Hbuild Hdir Hrun
               Hprimary Hcopy).
    destruct (Z.eqb_spec (returncode result) 0); [contradiction|reflexivity]. }
  split; [reflexivity|].
  unfold unexpected_msg. cbn [exn_text].
  repeat split; apply embeds_app_r, embeds_app_l; unfold failed_msg.
  - rewrite <- string_app_assoc. apply embeds_head.
  - find_piece.
  - find_piece.
  - find_piece.
  - find_piece.
Qed.

Lemma execution_failed_when_logs_caught_witness :
  exists msg,
    fst (execute_command (with_open_file refuse_files demo_host) scenario_kwargs
           (mkState demo_executor []))
    = Raised (mkExn RuntimeError msg)
    /\ embeds "Apptainer execution failed with return code 1" msg
    /\ embeds "Error occurred" msg
    /\ embeds "/work/apptainer_execution.log" msg.
Proof.
  destruct (execution_failed_when_logs_caught
              (with_open_file refuse_files demo_host) scenario_kwargs
              (mkState demo_executor [])
              (mkState (set_apptainer_path (Some "/usr/bin/apptainer") demo_executor)
                 [Logged INFO (Text "Found apptainer at: /usr/bin/apptainer");
                  Logged INFO (VersionCheckSuccessful "apptainer version 1.2.3")])
              ["/usr/bin/apptainer"; "exec"; "--pwd"; "/App";
               "--bind"; "/work:/App"; "--bind"; "/tmp:/tmp";
               "/data/test.sif"; "mpirun"; "-np"; "2";
               "ngpb"; "--prmfile"; "config.prm"]
              (mkCompleted 1 "" "Error occurred")
              eq_refl eq_refl)
    as (msg & Hraise & _ & Hcode & _ & _ & Herr & Hlog).
  - intros d Hd. discriminate Hd.
  - reflexivity.
  - discriminate.
  - reflexivity.
  - intros d Hd. discriminate Hd.
  - exists msg. repeat split; assumption.
Defined.

(** X29.  Once the subprocess has completed, a log write that fails on the
    primary or on the copy path does not change the outcome of
    [execute_command] as long as the failure can be reported: whatever the
    host answers to opening the files, the call returns the process result
    on a zero exit status and raises the execution-failure error on a
    non-zero one. *)
Theorem caught_log_failure_harmless (h : Host)
    (f : string -> string -> option exn)
    (kwargs : Py.dict Py.value) (st st1 : state) (cmd : list string)
    (result : completed) :
  validate_apptainer_availability h st = (Return tt, st1) ->
  build_command h (self st1) (fst (sort_apptainer_kwargs kwargs))
    (fst (sort_ngpb_kwargs kwargs)) = Return cmd ->
  (forall d, log_copy_dir (self st1) = Some d -> mkdir h d = None) ->
  run h (spawn_args h (self st1) cmd) = inr result ->
  write_caught (with_open_file f h) (primary_log_of h (self st1)) = true ->
  (forall d, log_copy_dir (self st1) = Some d ->
             write_caught (with_open_file f h)
               (path_join h d "apptainer_execution.log") = true) ->
  fst (execute_command (with_open_file f h) kwargs st)
  = if (returncode result =? 0)%Z then Return result
    else Raised (mkExn RuntimeError
                   (unexpected_msg (self st1) cmd
                      (mkExn RuntimeError
                         (failed_msg cmd result (primary_log_of h (self st1)))))).
Proof.
  intros Hval Hbuild Hdir Hrun Hprimary Hcopy.
  exact (execute_command_completed (with_open_file f h) kwargs st st1 cmd
           result Hval Hbuild Hdir Hrun Hprimary Hcopy).
Qed.

Lemma caught_log_failure_harmless_witness :
  fst (execute_command (with_open_file refuse_files (host_exiting 0))
         scenario_kwargs
         (mkState (mkExecutor "/data/test.sif" 2 "/work" [] None
                              (Some "/work/logs") None) []))
  = Return (mkCompleted 0 "Success" "").
Proof.
  apply (caught_log_failure_harmless (host_exiting 0) refuse_files
           scenario_kwargs
           (mkState (mkExecutor "/data/test.sif" 2 "/work" [] None
                                (Some "/work/logs") None) [])
           (mkState (mkExecutor "/data/test.sif" 2 "/work" [] None
                                (Some "/work/logs") (Some "/usr/bin/apptainer"))
              [Logged INFO (Text "Found apptainer at: /usr/bin/apptainer");
               Logged INFO (VersionCheckSuccessful "apptainer version 1.2.3")])
           ["/usr/bin/apptainer"; "exec"; "--pwd"; "/App";
            "--bind"; "/work:/App"; "--bind"; "/tmp:/tmp";
            "/data/test.sif"; "mpirun"; "-np"; "2";
            "ngpb"; "--prmfile"; "config.prm"]
           (mkCompleted 0 "Success" "")).
  - reflexivity.
  - reflexivity.
  - intros d Hd. reflexivity.
  - reflexivity.
  - reflexivity.
  - intros d [= <-]. reflexivity.
Defined.
